(** * chat_backend: SocketIO chat relay with moderation and persistence

    A shallow embedding of [backend/chat backened_version_3.0.py]: the
    in-memory membership map [users_in_rooms], the four SocketIO event
    handlers and the coroutine [moderate_message].  Handlers are functions
    in a state-and-exception monad over a [world] that holds the membership
    map, the SocketIO subscription groups, the emitted events, the message
    collection, the calls made to external services and the printed lines. *)

From stdpp Require Import gmap strings list sorting.
From Stdlib Require OrderedTypeEx.

Local Open Scope string_scope.
Local Open Scope list_scope.
Set Warnings "-register-all,-clear-no-such-hyp".

(** ** Python fragments the handlers rely on *)

(** An exception instance, of a class derived from [Exception] (the ones
    an [except Exception] clause catches): its class name and [str(e)]. *)
Record exn := Exn { exn_class : string; exn_str : string }.

(** The outcome of evaluating a Python expression or statement block. *)
Inductive result (A : Type) : Type :=
| Ok (a : A)
| Raise (e : exn).
Arguments Ok {A} a.
Arguments Raise {A} e.

(** The values [json.loads] produces (floats are left out: the response
    schema of the classifier has none). *)
Inductive pyval : Type :=
| PNone
| PBool (b : bool)
| PInt (z : Z)
| PStr (s : string)
| PList (l : list pyval)
| PDict (d : gmap string pyval).

(** Truth value testing ([if x], [not x]). *)
Definition truthy (v : pyval) : bool :=
  match v with
  | PNone => false
  | PBool b => b
  | PInt z => negb (Z.eqb z 0)
  | PStr s => negb (String.eqb s "")
  | PList l => match l with [] => false | _ => true end
  | PDict d => negb (bool_decide (d = ∅))
  end.

(** [type(v).__name__], as it appears in attribute errors. *)
Definition type_name (v : pyval) : string :=
  match v with
  | PNone => "NoneType"
  | PBool _ => "bool"
  | PInt _ => "int"
  | PStr _ => "str"
  | PList _ => "list"
  | PDict _ => "dict"
  end.

(** [v.get(key)] and [v.get(key, dflt)]: only dictionaries have the method. *)
Definition py_get (v : pyval) (key : string) (dflt : pyval) : result pyval :=
  match v with
  | PDict d => Ok (default dflt (d !! key))
  | _ => Raise (Exn "AttributeError"
                    ("'" +:+ type_name v +:+ "' object has no attribute 'get'"))
  end.

(** [l[0]] on a sequence: the first element, or an [IndexError].  The text
    is the built-in list's; other containers word theirs differently, and
    nothing below rests on it. *)
Definition py_index0 {A : Type} (l : list A) : result A :=
  match l with
  | x :: _ => Ok x
  | [] => Raise (Exn "IndexError" "list index out of range")
  end.

(** The data of a SocketIO event is a JSON object whose fields the handlers
    document as strings; [data.get(k)] is [None] for a missing field and
    [not x] holds for [None] and for the empty string. *)
Definition not_ (x : option string) : bool :=
  match x with
  | None => true
  | Some s => String.eqb s ""
  end.

(** The string behind a field the handler has already checked with [not_]. *)
Definition str_of (x : option string) : string := default "" x.

(** What calling a function hands back.  A function declared [async def]
    does not run when it is called: the call returns a coroutine object, and
    the body runs only if an event loop awaits that object. *)
Inductive returned (A B : Type) : Type :=
| Value (a : A)
| Coroutine (body : B).
Arguments Value {A B} a.
Arguments Coroutine {A B} body.

(** The objects bound to [timestamp] in [handle_message], and the classes
    [isinstance] may be asked about. *)
Inductive pyobj : Type :=
| Sentinel (description : string)
| Datetime (t : Z)
| Class (name : string).

Definition class_of (o : pyobj) : string :=
  match o with
  | Sentinel _ => "Sentinel"
  | Datetime _ => "datetime"
  | Class _ => "type"
  end.

(** [isinstance(obj, classinfo)]: the second argument has to be a class. *)
Definition isinstance (obj classinfo : pyobj) : result bool :=
  match classinfo with
  | Class name => Ok (String.eqb (class_of obj) name)
  | _ => Raise (Exn "TypeError"
                    "isinstance() arg 2 must be a type, a tuple of types, or a union")
  end.

(** [google.cloud.firestore.SERVER_TIMESTAMP] is a module-level object, an
    instance of [transforms.Sentinel]; it is not a class. *)
Definition SERVER_TIMESTAMP : pyobj :=
  Sentinel "Value used to set a document field to the server timestamp.".

(** [str(o)]: [Sentinel.__repr__] for a sentinel. *)
Definition py_str (o : pyobj) : string :=
  match o with
  | Sentinel d => "Sentinel: " +:+ d
  | Datetime _ => "datetime"
  | Class n => "<class '" +:+ n +:+ "'>"
  end.

(** ** Events, documents and the world *)

(** A moderation verdict, the dictionary [{"status": .., "reason": ..}].  The
    reason is whatever the classifier's JSON holds under ["reason"]. *)
Record verdict := Verdict { status : string; reason : pyval }.

(** One element of the [chat_history] payload (lines 167-174). *)
Record history_entry := HistoryEntry {
  h_userId : option string;
  h_username : option string;
  h_message : option string;
  h_timestamp : option string;
  h_moderation_status : pyval;
  h_moderation_reason : pyval
}.

(** The payload of [receive_message] (lines 249-256). *)
Record broadcast_message := BroadcastMessage {
  b_userId : string;
  b_username : string;
  b_message : string;
  b_timestamp : string;
  b_moderation_status : pyval;
  b_moderation_reason : pyval
}.

(** The dictionary handed to [collection.add] (lines 229-237). *)
Record message_to_save := MessageToSave {
  s_room : string;
  s_userId : string;
  s_username : string;
  s_message : string;
  s_timestamp : pyobj;
  s_moderation_status : pyval;
  s_moderation_reason : pyval
}.

(** The [timestamp] field of a stored document: the document may lack the
    field, or hold null or a point in time under it. *)
Inductive timestamp_field : Type :=
| no_field
| null
| at_time (t : Z).

(** A document of the [chat_messages] collection as the store returns it:
    its name (the document id) and its fields, any of which may be absent. *)
Record doc := Doc {
  doc_id : string;
  doc_room : option string;
  doc_userId : option string;
  doc_username : option string;
  doc_message : option string;
  doc_timestamp : timestamp_field;
  doc_moderation_status : option pyval;
  doc_moderation_reason : option pyval
}.

(** The outbound events, each with its payload. *)
Inductive event : Type :=
| status_ev (message : string)
| error_ev (message : string)
| user_joined (userId username : string)
| user_left (userId username : string)
| chat_history (messages : list history_entry)
| receive_message (m : broadcast_message).

(** One call of [emit]: the event, the group it is addressed to ([room=]),
    the connection left out ([skip_sid=]) and the connections it reached. *)
Record emitted := Emitted {
  ev : event;
  to : string;
  skip_sid : option string;
  delivered : gset string
}.

(** Calls that leave the process. *)
Inductive call : Type :=
| generate_content (prompt : string)
| collection_add (path : string) (m : message_to_save)
| query_stream (path : string) (room : string).

Record world := World {
  (** the module-level dictionary of dictionaries, in insertion order *)
  users_in_rooms : list (string * gmap string string);
  (** SocketIO's groups: the connections subscribed under each name; a
      connection is subscribed under its own [sid] while it is connected *)
  rooms : gmap string (gset string);
  (** every [emit] so far, oldest first *)
  outbox : list emitted;
  (** the documents of the [chat_messages] collection *)
  collection : list doc;
  (** the calls made to the classifier and to the store, oldest first *)
  calls : list call;
  (** the lines printed, oldest first *)
  stdout : list string
}.

Definition set_users_in_rooms (f : list (string * gmap string string) → list (string * gmap string string)) (w : world) : world :=
  World (f (users_in_rooms w)) (rooms w) (outbox w) (collection w) (calls w) (stdout w).
Definition set_rooms (f : gmap string (gset string) → gmap string (gset string)) (w : world) : world :=
  World (users_in_rooms w) (f (rooms w)) (outbox w) (collection w) (calls w) (stdout w).
Definition set_outbox (f : list emitted → list emitted) (w : world) : world :=
  World (users_in_rooms w) (rooms w) (f (outbox w)) (collection w) (calls w) (stdout w).
Definition set_collection (f : list doc → list doc) (w : world) : world :=
  World (users_in_rooms w) (rooms w) (outbox w) (f (collection w)) (calls w) (stdout w).
Definition set_calls (f : list call → list call) (w : world) : world :=
  World (users_in_rooms w) (rooms w) (outbox w) (collection w) (f (calls w)) (stdout w).
Definition set_stdout (f : list string → list string) (w : world) : world :=
  World (users_in_rooms w) (rooms w) (outbox w) (collection w) (calls w) (f (stdout w)).

(** The state of a freshly started server. *)
Definition initial_world (stored : list doc) : world := World [] ∅ [] stored [] [].

(** ** Handlers as state-and-exception computations *)

Definition M (A : Type) : Type := world → world * result A.

#[global] Instance M_ret : MRet M := λ A a w, (w, Ok a).
#[global] Instance M_bind : MBind M := λ A B k m w,
  match m w with
  | (w', Ok a) => k a w'
  | (w', Raise e) => (w', Raise e)
  end.

Definition lift {A : Type} (r : result A) : M A := λ w, (w, r).
Definition gets {A : Type} (f : world → A) : M A := λ w, (w, Ok (f w)).
Definition modify (f : world → world) : M unit := λ w, (f w, Ok tt).

(** [try: body except Exception as e: handler(e)]: what the body did before
    it raised stays done. *)
Definition try_except {A : Type} (body : M A) (handler : exn → M A) : M A := λ w,
  match body w with
  | (w', Ok a) => (w', Ok a)
  | (w', Raise e) => handler e w'
  end.

Definition print (line : string) : M unit := modify (set_stdout (λ l, l ++ [line])).
Definition record_call (c : call) : M unit := modify (set_calls (λ l, l ++ [c])).

(** *** The SocketIO transport *)

(** The connections an [emit(.., room=to, skip_sid=skip)] reaches. *)
Definition audience (groups : gmap string (gset string)) (to : string) (skip : option string) : gset string :=
  match skip with
  | Some s => groups !!! to ∖ {[s]}
  | None => groups !!! to
  end.

(** [flask_socketio.emit] inside a handler serving [request_sid]: without
    [room=] the event goes to the originating connection's own group. *)
Definition emit (request_sid : string) (e : event) (room : option string) (skip : option string) : M unit :=
  modify (λ w,
    let to := default request_sid room in
    set_outbox (λ l, l ++ [Emitted e to skip (audience (rooms w) to skip)]) w).

(** [flask_socketio.join_room(room)] and [leave_room(room)] act on the
    connection that is being served. *)
Definition join_room (request_sid room : string) : M unit :=
  modify (set_rooms (λ g, <[room := {[request_sid]} ∪ g !!! room]> g)).
Definition leave_room (request_sid room : string) : M unit :=
  modify (set_rooms (λ g, <[room := g !!! room ∖ {[request_sid]}]> g)).

(** *** The dictionary [users_in_rooms] *)

Fixpoint dict_lookup {V : Type} (k : string) (d : list (string * V)) : option V :=
  match d with
  | [] => None
  | (k', v) :: rest => if String.eqb k' k then Some v else dict_lookup k rest
  end.

(** [d[k] = v]: replaces in place, or appends a new key. *)
Fixpoint dict_insert {V : Type} (k : string) (v : V) (d : list (string * V)) : list (string * V) :=
  match d with
  | [] => [(k, v)]
  | (k', v') :: rest =>
      if String.eqb k' k then (k, v) :: rest else (k', v') :: dict_insert k v rest
  end.

(** In-place mutation of the object stored under [k]. *)
Fixpoint dict_alter {V : Type} (f : V → V) (k : string) (d : list (string * V)) : list (string * V) :=
  match d with
  | [] => []
  | (k', v) :: rest =>
      if String.eqb k' k then (k', f v) :: rest else (k', v) :: dict_alter f k rest
  end.

(** [users_in_rooms[room][user_id]], when both keys are present. *)
Definition lookup_member (room user_id : string) (d : list (string * gmap string string)) : option string :=
  dict_lookup room d ≫= λ users, users !! user_id.

(** ** Configuration and external services *)

(** A response of [model.generate_content]: its candidates, each with the
    texts of its content parts ([response.candidates[i].content.parts[j].text]). *)
Definition response : Type := list (list string).

(** The module-level [model] when it is not [None]: what
    [generate_content(prompt, ..)] answers, or the exception it raises. *)
Definition gemini_model : Type := string → result response.

(** The module-level [db] when it is not [None]: what the store does while
    one event is served.  [add] yields the new document's id and the time
    the server assigns, or raises; [stream] may raise. *)
Record firestore_client := FirestoreClient {
  add_outcome : result (string * Z);
  stream_outcome : option exn
}.

Record env := Env {
  db : option firestore_client;
  model : option gemini_model;
  environ : gmap string string
}.

Definition os_environ_get (e : env) (key dflt : string) : string :=
  default dflt (environ e !! key).

Definition collection_path (e : env) : string :=
  "artifacts/" +:+ os_environ_get e "__app_id" "default-app-id" +:+ "/public/data/chat_messages".

(** *** The store's query *)

(** Firestore's order on the values of a timestamp field: null first, then
    by time.  (A document without the field is never compared, see
    [messages_ref]; it is ranked with null.) *)
Definition ts_le (a b : timestamp_field) : Prop :=
  match a, b with
  | at_time x, at_time y => (x ≤ y)%Z
  | at_time _, _ => False
  | _, _ => True
  end.

(** The order of the results of [order_by('timestamp')]: by the field's
    value, and among equal values by document name. *)
Definition doc_le (d1 d2 : doc) : Prop :=
  ts_le (doc_timestamp d1) (doc_timestamp d2)
  ∧ (ts_le (doc_timestamp d2) (doc_timestamp d1) → String.leb (doc_id d1) (doc_id d2) = true).

#[global] Instance ts_le_dec a b : Decision (ts_le a b).
Proof. destruct a, b; simpl; apply _. Defined.
#[global] Instance doc_le_dec d1 d2 : Decision (doc_le d1 d2).
Proof. unfold doc_le. apply _. Defined.
#[global] Instance timestamp_field_eq_dec : EqDecision timestamp_field.
Proof. solve_decision. Defined.

(** The documents the query ranges over: those of the room ([where]) that
    have a [timestamp] field ([order_by] leaves the others out). *)
Definition room_messages (room : string) (coll : list doc) : list doc :=
  filter (λ d, doc_room d = Some room ∧ doc_timestamp d ≠ no_field) coll.

(** [collection.where('room', '==', room).order_by('timestamp').limit(20)]:
    ascending is [order_by]'s default direction, and [limit] keeps the
    first documents of that order. *)
Definition messages_ref (room : string) (coll : list doc) : list doc :=
  take 20 (merge_sort doc_le (room_messages room coll)).

(** [list(messages_ref.stream())] *)
Definition stream (e : env) (client : firestore_client) (room : string) : M (list doc) :=
  record_call (query_stream (collection_path e) room);;
  match stream_outcome client with
  | Some ex => lift (Raise ex)
  | None => gets (λ w, messages_ref room (collection w))
  end.

(** What the server stores for a message, under the name it gives the new
    document: the sentinel is replaced by the server's time. *)
Definition stored_doc (m : message_to_save) (doc_id : string) (now : Z) : doc :=
  Doc doc_id (Some (s_room m)) (Some (s_userId m)) (Some (s_username m)) (Some (s_message m))
      (at_time now) (Some (s_moderation_status m)) (Some (s_moderation_reason m)).

(** [collection.add(message_to_save)]: writes the document and returns the
    pair (time of the write, reference to the new document). *)
Definition add (e : env) (client : firestore_client) (m : message_to_save) : M (Z * string) :=
  record_call (collection_add (collection_path e) m);;
  match add_outcome client with
  | Raise ex => lift (Raise ex)
  | Ok (doc_id, now) =>
      modify (set_collection (λ c, c ++ [stored_doc m doc_id now]));;
      mret (now, doc_id)
  end.

(** [t.id] on a tuple: a tuple has no such attribute. *)
Definition tuple_id {A B : Type} (t : A * B) : result string :=
  Raise (Exn "AttributeError" "'tuple' object has no attribute 'id'").

Definition moderation_prompt (text : string) : string :=
  "Is the following chat message safe and appropriate for a general audience? Respond with a JSON object containing 'is_safe' (boolean) and 'reason' (string, 'N/A' if safe). Message: '"
  +:+ text +:+ "'".

(** [verdict[key]] on a verdict dictionary; a coroutine object has no
    [__getitem__]. *)
Definition subscript {B : Type} (r : returned verdict B) (key : string) : result pyval :=
  match r with
  | Coroutine _ => Raise (Exn "TypeError" "'coroutine' object is not subscriptable")
  | Value v =>
      if String.eqb key "status" then Ok (PStr (status v))
      else if String.eqb key "reason" then Ok (reason v)
      else Raise (Exn "KeyError" ("'" +:+ key +:+ "'"))
  end.

(** [gevent.spawn(f, x).get()]: the greenlet runs the call [f(x)] and
    [get] hands back what that call returned. *)
Definition gevent_spawn_get {A : Type} (call : M A) : M A := call.

(** Calling a function declared [async def]: the body is wrapped, not run. *)
Definition call_async {A B : Type} (body : B) : M (returned A B) := mret (Coroutine body).

(** [timestamp.isoformat()] *)
Definition py_isoformat (isoformat : Z → string) (o : pyobj) : result string :=
  match o with
  | Datetime t => Ok (isoformat t)
  | _ => Raise (Exn "AttributeError"
                    ("'" +:+ class_of o +:+ "' object has no attribute 'isoformat'"))
  end.

(** ** The program *)

Section Program.

(** [json.loads] and [datetime.isoformat], taken as given. *)
Variable json_loads : string → result pyval.
Variable isoformat : Z → string.

(** *** [moderate_message] (lines 66-108) *)

(** The statements inside [try:] (lines 76-104). *)
Definition moderate_message_try (m : gemini_model) (text : string) : M verdict :=
  let prompt := moderation_prompt text in
  record_call (generate_content prompt);;
  response ← lift (m prompt);
  candidate ← lift (py_index0 response);
  response_text ← lift (py_index0 candidate);
  moderation_result ← lift (json_loads response_text);
  is_safe ← lift (py_get moderation_result "is_safe" PNone);
  if truthy is_safe then
    mret (Verdict "safe" (PStr "N/A"))
  else
    r ← lift (py_get moderation_result "reason" (PStr "Content flagged by AI."));
    mret (Verdict "unsafe" r).

(** The body of the coroutine [moderate_message(text)]: what runs when
    the coroutine object is awaited. *)
Definition moderate_message (e : env) (text : string) : M verdict :=
  match model e with
  | None =>
      print "Gemini model not initialized. Skipping moderation.";;
      mret (Verdict "skipped" (PStr "AI unavailable"))
  | Some m =>
      try_except (moderate_message_try m text)
        (λ ex,
          print ("Error during AI moderation: " +:+ exn_str ex);;
          mret (Verdict "error" (PStr ("AI moderation failed: " +:+ exn_str ex))))
  end.

(** *** [handle_connect] (lines 116-120) *)

Definition handle_connect (request_sid : string) : M unit :=
  print ("Client connected: " +:+ request_sid);;
  emit request_sid (status_ev "Connected to chat server") (Some request_sid) None.

(** *** [handle_disconnect] (lines 122-131) *)

(** The loop over [users_in_rooms.items()], from the items still to visit. *)
Fixpoint handle_disconnect_loop (request_sid : string)
    (items : list (string * gmap string string)) : M unit :=
  match items with
  | [] => mret tt
  | (room_id, users) :: rest =>
      if bool_decide (is_Some (users !! request_sid)) then
        modify (set_users_in_rooms (dict_alter (delete request_sid) room_id));;
        emit request_sid (user_left request_sid "A user") (Some room_id) (Some request_sid);;
        print ("User " +:+ request_sid +:+ " left room " +:+ room_id +:+ " on disconnect.")
        (* break *)
      else handle_disconnect_loop request_sid rest
  end.

Definition handle_disconnect (request_sid : string) : M unit :=
  print ("Client disconnected: " +:+ request_sid);;
  items ← gets users_in_rooms;
  handle_disconnect_loop request_sid items.

(** *** [handle_join_room] (lines 133-181) *)

(** One pass of the loop that builds [history] (lines 165-174). *)
Definition history_entry_of (msg_data : doc) : history_entry :=
  HistoryEntry (doc_userId msg_data) (doc_username msg_data) (doc_message msg_data)
    (match doc_timestamp msg_data with at_time t => Some (isoformat t) | _ => None end)
    (default (PStr "N/A") (doc_moderation_status msg_data))
    (default (PStr "N/A") (doc_moderation_reason msg_data)).

Definition handle_join_room (e : env) (request_sid : string) (data : gmap string string) : M unit :=
  let room := data !! "room" in
  let user_id := data !! "userId" in
  let username := data !! "username" in
  if not_ room || not_ user_id || not_ username then
    emit request_sid (error_ev "Room, userId, and username are required to join.") None None
  else
    let room := str_of room in
    let user_id := str_of user_id in
    let username := str_of username in
    join_room request_sid room;;
    known ← gets (λ w, dict_lookup room (users_in_rooms w));
    (if known is None then modify (set_users_in_rooms (dict_insert room ∅)) else mret tt);;
    modify (set_users_in_rooms (dict_alter (<[user_id := username]>) room));;
    print ("User " +:+ username +:+ " (" +:+ user_id +:+ ") joined room: " +:+ room);;
    emit request_sid (user_joined user_id username) (Some room) (Some request_sid);;
    match db e with
    | Some client =>
        try_except
          (docs ← gevent_spawn_get (stream e client room);
           let history := history_entry_of <$> docs in
           emit request_sid (chat_history history) (Some request_sid) None;;
           print ("Sent chat history to " +:+ username +:+ " in room " +:+ room))
          (λ ex,
            print ("Error fetching chat history for room " +:+ room +:+ ": " +:+ exn_str ex);;
            emit request_sid (error_ev ("Failed to load chat history: " +:+ exn_str ex))
              (Some request_sid) None)
    | None =>
        emit request_sid (error_ev "Firestore not available, cannot load history.")
          (Some request_sid) None
    end.

(** *** [handle_leave_room] (lines 184-203) *)

Definition handle_leave_room (request_sid : string) (data : gmap string string) : M unit :=
  let room := data !! "room" in
  let user_id := data !! "userId" in
  if not_ room || not_ user_id then
    emit request_sid (error_ev "Room and userId are required to leave.") None None
  else
    let room := str_of room in
    let user_id := str_of user_id in
    leave_room request_sid room;;
    found ← gets (λ w, lookup_member room user_id (users_in_rooms w));
    match found with
    | Some username =>
        (* users_in_rooms[room].pop(user_id) *)
        modify (set_users_in_rooms (dict_alter (delete user_id) room));;
        print ("User " +:+ username +:+ " (" +:+ user_id +:+ ") left room: " +:+ room);;
        emit request_sid (user_left user_id username) (Some room) None
    | None =>
        print ("User " +:+ user_id +:+ " tried to leave room " +:+ room +:+ " but was not found.")
    end.

(** *** [handle_message] (lines 206-259) *)

(** Lines 226-259, from the object that line 225 binds to
    [moderation_result]. *)
Definition handle_message_from (e : env) (request_sid room user_id username message_text : string)
    (timestamp : pyobj) (moderation_result : returned verdict (M verdict)) : M unit :=
  moderation_status ← lift (subscript moderation_result "status");
  moderation_reason ← lift (subscript moderation_result "reason");
  let message_to_save :=
    MessageToSave room user_id username message_text timestamp
      moderation_status moderation_reason in
  match db e with
  | Some client =>
      try_except
        (doc_ref ← gevent_spawn_get (add e client message_to_save);
         doc_ref_id ← lift (tuple_id doc_ref);
         print ("Message saved to Firestore: " +:+ doc_ref_id))
        (λ ex,
          print ("Error saving message to Firestore: " +:+ exn_str ex);;
          emit request_sid (error_ev ("Failed to save message: " +:+ exn_str ex))
            (Some request_sid) None)
  | None => mret tt
  end;;
  is_sentinel ← lift (isinstance timestamp SERVER_TIMESTAMP);
  timestamp_text ← (if is_sentinel : bool then mret (py_str timestamp)
                    else lift (py_isoformat isoformat timestamp));
  let broadcast_message :=
    BroadcastMessage user_id username message_text timestamp_text
      moderation_status moderation_reason in
  emit request_sid (receive_message broadcast_message) (Some room) None;;
  match moderation_status with
  | PStr st => print ("Message broadcasted to room " +:+ room +:+ " with status: " +:+ st)
  | _ => print ("Message broadcasted to room " +:+ room +:+ " with status: ")
  end.

Definition handle_message (e : env) (request_sid : string) (data : gmap string string) : M unit :=
  let room := data !! "room" in
  let user_id := data !! "userId" in
  let username := data !! "username" in
  let message_text := data !! "message" in
  let timestamp := SERVER_TIMESTAMP in
  if not_ room || not_ user_id || not_ username || not_ message_text then
    emit request_sid (error_ev "Room, userId, username, and message are required.") None None
  else
    let room := str_of room in
    let user_id := str_of user_id in
    let username := str_of username in
    let message_text := str_of message_text in
    print ("Received message from " +:+ username +:+ " in room " +:+ room +:+ ": " +:+ message_text);;
    moderation_result ← gevent_spawn_get (call_async (moderate_message e message_text));
    handle_message_from e request_sid room user_id username message_text timestamp
      moderation_result.

(** *** The server *)

(** The events a connection sends, with their data. *)
Inductive request : Type :=
| connect
| disconnect
| join_room_ev (data : gmap string string)
| leave_room_ev (data : gmap string string)
| send_message (data : gmap string string).

Definition handler (e : env) (request_sid : string) (r : request) : M unit :=
  match r with
  | connect => handle_connect request_sid
  | disconnect => handle_disconnect request_sid
  | join_room_ev data => handle_join_room e request_sid data
  | leave_room_ev data => handle_leave_room request_sid data
  | send_message data => handle_message e request_sid data
  end.

(** Serving one event.  SocketIO subscribes a connection under its own
    [sid] before the connect handler runs and drops it from every group
    after the disconnect handler has run; an exception that leaves a
    handler is logged by the server, which goes on serving. *)
Definition serve (e : env) (request_sid : string) (r : request) (w : world) : world :=
  let w :=
    match r with
    | connect => set_rooms (λ g, <[request_sid := {[request_sid]} ∪ g !!! request_sid]> g) w
    | _ => w
    end in
  let w := (handler e request_sid r w).1 in
  match r with
  | disconnect => set_rooms (fmap (λ members, members ∖ {[request_sid]})) w
  | _ => w
  end.

(** A run of the server: the events served, oldest first, each with the
    connection it came from and what the outside world does meanwhile. *)
Definition run (trace : list (env * string * request)) (w : world) : world :=
  foldl (λ w '(e, request_sid, r), serve e request_sid r w) w trace.

End Program.

(** ** Properties stated about the handlers *)

(** A field that is missing from the event's data, or is the empty string. *)
Definition absent (data : gmap string string) (key : string) : Prop :=
  data !! key = None ∨ data !! key = Some "".

(** A field that is present and not empty. *)
Definition given (data : gmap string string) (key value : string) : Prop :=
  data !! key = Some value ∧ value ≠ "".

(** Each user identifier is a key of at most one room's mapping. *)
Definition single_room (d : list (string * gmap string string)) : Prop :=
  ∀ user_id r1 r2, is_Some (lookup_member r1 user_id d) →
                   is_Some (lookup_member r2 user_id d) → r1 = r2.

(** The request is a [join_room] that passes the handler's validation and
    names a user who is, in [d], a member of another room. *)
Definition joins_elsewhere (r : request) (d : list (string * gmap string string)) : Prop :=
  match r with
  | join_room_ev data =>
      not_ (data !! "room") || not_ (data !! "userId") || not_ (data !! "username") = false
      ∧ ∃ other, other ≠ str_of (data !! "room")
                 ∧ is_Some (lookup_member other (str_of (data !! "userId")) d)
  | _ => False
  end.

(** No event of the trace, served from [w] on, is such a join. *)
Fixpoint one_room_at_a_time (json_loads : string → result pyval) (isoformat : Z → string)
    (trace : list (env * string * request)) (w : world) : Prop :=
  match trace with
  | [] => True
  | (e, request_sid, r) :: rest =>
      ¬ joins_elsewhere r (users_in_rooms w)
      ∧ one_room_at_a_time json_loads isoformat rest (serve json_loads isoformat e request_sid r w)
  end.

(** [d'] has no membership that [d] lacks. *)
Definition shrinks (d d' : list (string * gmap string string)) : Prop :=
  ∀ r u, is_Some (lookup_member r u d') → is_Some (lookup_member r u d).

(** What [moderate_message] returns when the statements under [try:] raise. *)
Definition error_verdict (ex : exn) : verdict :=
  Verdict "error" (PStr ("AI moderation failed: " +:+ exn_str ex)).



(** ** Sample data *)

(** A decoder that knows a few response texts. *)
Definition sample_loads (s : string) : result pyval :=
  if String.eqb s "SAFE" then
    Ok (PDict {[ "is_safe" := PBool true; "reason" := PStr "N/A" ]})
  else if String.eqb s "PROFANITY" then
    Ok (PDict {[ "is_safe" := PBool false; "reason" := PStr "profanity" ]})
  else if String.eqb s "FLAGGED" then
    Ok (PDict {[ "is_safe" := PBool false ]})
  else Raise (Exn "JSONDecodeError" "Expecting value: line 1 column 1 (char 0)").

Definition sample_isoformat (t : Z) : string :=
  if (t <? 0)%Z then "1969-12-31T23:59:59" else "1970-01-01T00:00:00".

(** A model that answers every prompt with the one response text given. *)
Definition answering (response_text : string) : gemini_model := λ _, Ok [[response_text]].

Definition join_data (room user_id username : string) : gmap string string :=
  {[ "room" := room; "userId" := user_id; "username" := username ]}.
Definition leave_data (room user_id : string) : gmap string string :=
  {[ "room" := room; "userId" := user_id ]}.
Definition message_data (room user_id username message : string) : gmap string string :=
  {[ "room" := room; "userId" := user_id; "username" := username; "message" := message ]}.

Definition working_store : firestore_client := FirestoreClient (Ok ("doc-1", 100%Z)) None.
Definition failing_store : firestore_client :=
  FirestoreClient (Raise (Exn "ServiceUnavailable" "503 store unavailable")) None.

(** Neither the store nor the classifier could be initialised. *)
Definition bare : env := Env None None ∅.
(** The classifier answers "safe"; the store works, or fails on [add]. *)
Definition served : env := Env (Some working_store) (Some (answering "SAFE")) ∅.
Definition served_failing_store : env :=
  Env (Some failing_store) (Some (answering "SAFE")) ∅.
Definition served_without_store : env := Env None (Some (answering "SAFE")) ∅.

(** Connection s1 has joined room r1 as (u1, Alice), and connection s2 as
    (u2, Bob). *)
Definition alice_and_bob : world :=
  run sample_loads sample_isoformat
    [ (bare, "s1", connect); (bare, "s1", join_room_ev (join_data "r1" "u1" "Alice"));
      (bare, "s2", connect); (bare, "s2", join_room_ev (join_data "r1" "u2" "Bob")) ]
    (initial_world []).






(** A decoder for a response that is valid JSON but not an object. *)
Definition loads_a_list (s : string) : result pyval := Ok (PList [PBool true]).

(** A model whose response has no candidates. *)
Definition answering_nothing : gemini_model := λ _, Ok [].

(** A store whose query raises. *)
Definition unreadable_store : firestore_client :=
  FirestoreClient (Ok ("doc-1", 100%Z))
    (Some (Exn "FailedPrecondition" "400 The query requires an index.")).

(** The event is an [error]. *)
Definition is_error (x : emitted) : Prop := ∃ message, ev x = error_ev message.

(** The events a handler added to the outbox of [w]. *)
Definition emitted_since (w w' : world) : list emitted := drop (length (outbox w)) (outbox w').

(** The room names that are keys of [users_in_rooms]. *)
Definition known_rooms (w : world) : list string := (users_in_rooms w).*1.

(** * Proofs *)

(** Unfolds the monad and its primitive actions. *)
Ltac run_M :=
  cbv [mbind M_bind mret M_ret lift gets modify try_except print record_call emit
       join_room leave_room gevent_spawn_get call_async];
  cbn [fst snd].

Lemma not_true_iff (x : option string) : not_ x = true ↔ x = None ∨ x = Some "".
Proof.
  destruct x as [s|]; simpl.
  - rewrite String.eqb_eq. split; [intros ->; by right | intros [?|[= ->]]; done].
  - split; [by left | done].
Qed.

Lemma not_given (data : gmap string string) key value :
  given data key value → not_ (data !! key) = false ∧ str_of (data !! key) = value.
Proof.
  intros [-> Hne]. split; [|done]. simpl. by apply String.eqb_neq.
Qed.

Lemma not_absent (data : gmap string string) key : absent data key → not_ (data !! key) = true.
Proof. intros H. by apply not_true_iff. Qed.

(** C5: a [send_message] event with an empty or missing [room], [userId],
    [username] or [message] makes the handler emit one [error] event
    addressed to the sending connection alone and return: no call to the
    classifier or the store is made, the collection is as it was, nothing
    else is emitted (so no [receive_message]), and the membership map and
    the subscriptions are unchanged. *)
Theorem handle_message_validation_failure (json_loads : string → result pyval)
    (isoformat : Z → string) (e : env) (request_sid : string)
    (data : gmap string string) (w : world) :
  absent data "room" ∨ absent data "userId" ∨ absent data "username" ∨ absent data "message" →
  ∃ w', handle_message json_loads isoformat e request_sid data w = (w', Ok tt)
    ∧ outbox w' = outbox w ++
        [Emitted (error_ev "Room, userId, username, and message are required.")
                 request_sid None (rooms w !!! request_sid)]
    ∧ calls w' = calls w
    ∧ collection w' = collection w
    ∧ users_in_rooms w' = users_in_rooms w
    ∧ rooms w' = rooms w.
Proof.
  intros H. unfold handle_message.
  assert (not_ (data !! "room") || not_ (data !! "userId")
          || not_ (data !! "username") || not_ (data !! "message") = true) as ->.
  { destruct H as [H|[H|[H|H]]]; apply not_absent in H; rewrite H;
      rewrite ?orb_true_r; done. }
  run_M. eexists. split; [reflexivity|]. simpl. done.
Qed.

(** C8: a [leave_room] request with non-empty [room] and [userId] for a
    user who is not in that room's mapping emits nothing (no [user_left],
    no [error]), leaves the membership map as it was, and only prints a
    line saying so. *)
Theorem handle_leave_room_not_member (request_sid : string) (data : gmap string string)
    (w : world) (room user_id : string) :
  given data "room" room →
  given data "userId" user_id →
  lookup_member room user_id (users_in_rooms w) = None →
  ∃ w', handle_leave_room request_sid data w = (w', Ok tt)
    ∧ outbox w' = outbox w
    ∧ users_in_rooms w' = users_in_rooms w
    ∧ calls w' = calls w
    ∧ stdout w' = stdout w ++
        ["User " +:+ user_id +:+ " tried to leave room " +:+ room +:+ " but was not found."].
Proof.
  intros [Hr Hroom]%not_given [Hu Huser]%not_given Hnone. unfold handle_leave_room.
  rewrite Hr, Hu, Hroom, Huser. run_M. simpl. rewrite Hnone.
  eexists. split; [reflexivity|]. simpl. done.
Qed.

(** C10: a [leave_room] request with non-empty [room] and [userId] takes
    the requesting connection out of the room's group whether or not the
    user is in the room's mapping (no hypothesis on the mapping), and
    before the mapping is consulted: a [user_left] event, if one is
    emitted, does not reach the requesting connection.  No other group
    changes. *)
Theorem handle_leave_room_unsubscribes (request_sid : string) (data : gmap string string)
    (w : world) (room user_id : string) :
  given data "room" room →
  given data "userId" user_id →
  let w' := (handle_leave_room request_sid data w).1 in
  rooms w' !!! room = (rooms w !!! room) ∖ {[request_sid]}
  ∧ (request_sid ∉ rooms w' !!! room)
  ∧ (∀ other, other ≠ room → rooms w' !! other = rooms w !! other)
  ∧ (∀ x, x ∈ drop (length (outbox w)) (outbox w') → request_sid ∉ delivered x).
Proof.
  intros [Hr Hroom]%not_given [Hu Huser]%not_given. unfold handle_leave_room.
  rewrite Hr, Hu, Hroom, Huser. run_M. simpl.
  assert (Hgrp : ∀ g : gmap string (gset string),
             (<[room := g !!! room ∖ {[request_sid]}]> g) !!! room
             = g !!! room ∖ {[request_sid]}).
  { intros g. by rewrite lookup_total_insert_eq. }
  destruct (lookup_member _ _ _) as [username|]; simpl.
  - rewrite Hgrp. split_and!; [done | set_solver | |].
    + intros other Hne. by rewrite lookup_insert_ne.
    + intros x. rewrite drop_app_length. intros ->%list_elem_of_singleton. simpl.
      set_solver.
  - rewrite Hgrp. split_and!; [done | set_solver | |].
    + intros other Hne. by rewrite lookup_insert_ne.
    + intros x. rewrite drop_all. by intros ?%elem_of_nil.
Qed.


(** *** The dictionary of rooms *)

Lemma dict_lookup_insert {V : Type} (k k' : string) (v : V) (d : list (string * V)) :
  dict_lookup k (dict_insert k' v d) = if decide (k = k') then Some v else dict_lookup k d.
Proof.
  induction d as [|[k0 v0] d IH]; simpl.
  - destruct (String.eqb_spec k' k); case_decide; congruence.
  - destruct (String.eqb_spec k0 k'); simpl.
    + destruct (String.eqb_spec k' k), (String.eqb_spec k0 k); case_decide; congruence.
    + rewrite IH. destruct (String.eqb_spec k0 k); case_decide; congruence.
Qed.

Lemma dict_lookup_alter {V : Type} (f : V → V) (k k' : string) (d : list (string * V)) :
  dict_lookup k (dict_alter f k' d)
  = if decide (k = k') then f <$> dict_lookup k d else dict_lookup k d.
Proof.
  induction d as [|[k0 v0] d IH]; simpl.
  - by case_decide.
  - destruct (String.eqb_spec k0 k'); simpl.
    + destruct (String.eqb_spec k0 k); case_decide; simpl; congruence.
    + rewrite IH. destruct (String.eqb_spec k0 k); case_decide; simpl; congruence.
Qed.

(** [users_in_rooms[room][user_id] = username], after the room's dictionary
    has been created if it was missing. *)
Lemma lookup_member_join (room user_id username r u : string)
    (d : list (string * gmap string string)) :
  lookup_member r u
    (dict_alter (<[user_id := username]>) room
       (if dict_lookup room d is None then dict_insert room ∅ d else d))
  = if decide (r = room ∧ u = user_id) then Some username else lookup_member r u d.
Proof.
  unfold lookup_member. rewrite dict_lookup_alter.
  destruct (dict_lookup room d) as [users|] eqn:Hd.
  - destruct (decide (r = room)) as [->|Hr].
    + rewrite Hd. simpl. case_decide as Hc.
      * destruct Hc as [_ ->]. by rewrite lookup_insert_eq.
      * rewrite lookup_insert_ne; [done|]. intros ->. by apply Hc.
    + case_decide as Hc; [by destruct Hc|done].
  - rewrite dict_lookup_insert. destruct (decide (r = room)) as [->|Hr].
    + rewrite Hd. simpl. case_decide as Hc.
      * destruct Hc as [_ ->]. by rewrite lookup_insert_eq.
      * rewrite lookup_insert_ne; [done|]. intros ->. by apply Hc.
    + case_decide as Hc; [by destruct Hc|done].
Qed.

(** Deleting a key from one room's dictionary adds no member anywhere. *)
Lemma lookup_member_delete (room user_id r u : string) (d : list (string * gmap string string)) :
  is_Some (lookup_member r u (dict_alter (delete user_id) room d)) →
  is_Some (lookup_member r u d).
Proof.
  unfold lookup_member. rewrite dict_lookup_alter. case_decide as Hc; [|done].
  subst r. destruct (dict_lookup room d) as [users|]; simpl; [|done].
  destruct (decide (u = user_id)) as [->|Hu].
  - rewrite lookup_delete_eq. by intros [? [=]].
  - by rewrite lookup_delete_ne.
Qed.

(** *** What each handler does to [users_in_rooms] *)

Lemma shrinks_refl d : shrinks d d.
Proof. by intros r u. Qed.

Lemma single_room_shrinks d d' : single_room d → shrinks d d' → single_room d'.
Proof. intros Hd Hs u r1 r2 H1 H2. apply (Hd u); by apply Hs. Qed.

Lemma handle_connect_members (request_sid : string) (w : world) :
  users_in_rooms (handle_connect request_sid w).1 = users_in_rooms w.
Proof. unfold handle_connect. run_M. done. Qed.

Lemma handle_message_members json_loads isoformat e request_sid data (w : world) :
  users_in_rooms (handle_message json_loads isoformat e request_sid data w).1
  = users_in_rooms w.
Proof.
  unfold handle_message, handle_message_from.
  destruct (_ || _); run_M; done.
Qed.

Lemma handle_disconnect_loop_shrinks request_sid items (w : world) :
  shrinks (users_in_rooms w)
          (users_in_rooms (handle_disconnect_loop request_sid items w).1).
Proof.
  induction items as [|[room_id users] rest IH]; simpl.
  - apply shrinks_refl.
  - case_bool_decide; [|done]. run_M. simpl.
    intros r u. apply lookup_member_delete.
Qed.

Lemma handle_disconnect_shrinks request_sid (w : world) :
  shrinks (users_in_rooms w) (users_in_rooms (handle_disconnect request_sid w).1).
Proof.
  unfold handle_disconnect. run_M.
  apply (handle_disconnect_loop_shrinks request_sid (users_in_rooms w)
           (set_stdout (λ l, l ++ ["Client disconnected: " +:+ request_sid]) w)).
Qed.

Lemma handle_leave_room_shrinks request_sid data (w : world) :
  shrinks (users_in_rooms w) (users_in_rooms (handle_leave_room request_sid data w).1).
Proof.
  unfold handle_leave_room. destruct (_ || _); run_M; simpl.
  - apply shrinks_refl.
  - destruct (lookup_member _ _ _); simpl.
    + intros r u. apply lookup_member_delete.
    + apply shrinks_refl.
Qed.

(** A join that fails validation leaves the mapping alone; one that passes
    records exactly the membership it names. *)
Lemma handle_join_room_members isoformat e request_sid data (w : world) :
  let d' := users_in_rooms (handle_join_room isoformat e request_sid data w).1 in
  if not_ (data !! "room") || not_ (data !! "userId") || not_ (data !! "username") then
    d' = users_in_rooms w
  else
    ∀ r u, lookup_member r u d'
           = if decide (r = str_of (data !! "room") ∧ u = str_of (data !! "userId"))
             then Some (str_of (data !! "username"))
             else lookup_member r u (users_in_rooms w).
Proof.
  unfold handle_join_room. destruct (_ || _); run_M; simpl; [done|].
  intros r u. rewrite <- lookup_member_join.
  destruct (dict_lookup _ (users_in_rooms w)); simpl;
    (destruct (db e) as [client|]; simpl; [unfold stream; run_M; simpl;
       destruct (stream_outcome client); simpl|]); done.
Qed.

Lemma serve_single_room json_loads isoformat e request_sid r (w : world) :
  single_room (users_in_rooms w) →
  ¬ joins_elsewhere r (users_in_rooms w) →
  single_room (users_in_rooms (serve json_loads isoformat e request_sid r w)).
Proof.
  intros Hw Hguard.
  destruct r as [| |data|data|data]; cbv beta iota zeta delta [serve handler].
  - rewrite handle_connect_members. exact Hw.
  - change (single_room (users_in_rooms (handle_disconnect request_sid w).1)).
    eapply single_room_shrinks; [exact Hw|apply handle_disconnect_shrinks].
  - pose proof (handle_join_room_members isoformat e request_sid data w) as Hj.
    cbv zeta in Hj. simpl in Hguard.
    destruct (not_ (data !! "room") || not_ (data !! "userId") || not_ (data !! "username"));
      [by rewrite Hj|].
    intros u r1 r2. rewrite !Hj.
    destruct (decide (u = str_of (data !! "userId"))) as [->|Hu].
    + intros H1 H2.
      destruct (decide (r1 = str_of (data !! "room"))) as [->|Hr1];
        destruct (decide (r2 = str_of (data !! "room"))) as [->|Hr2]; [done| | |].
      * rewrite decide_False in H2 by (by intros [? _]). destruct Hguard. eauto.
      * rewrite decide_False in H1 by (by intros [? _]). destruct Hguard. eauto.
      * rewrite decide_False in H1 by (by intros [? _]). destruct Hguard. eauto.
    + rewrite !decide_False by (by intros [_ ?]). apply Hw.
  - eapply single_room_shrinks; [exact Hw|apply handle_leave_room_shrinks].
  - by rewrite handle_message_members.
Qed.

Lemma run_single_room json_loads isoformat trace : ∀ w : world,
  single_room (users_in_rooms w) →
  one_room_at_a_time json_loads isoformat trace w →
  single_room (users_in_rooms (run json_loads isoformat trace w)).
Proof.
  induction trace as [|[[e request_sid] r] rest IH]; intros w Hw Htrace; [done|].
  destruct Htrace as [Hguard Hrest]. apply IH; [|done].
  by apply serve_single_room.
Qed.

(** C7, as amended: in every state the server reaches from its start by
    serving [connect], [disconnect], [join_room], [leave_room] and
    [send_message] events among which no valid [join_room] names a user who
    is at that moment a member of another room, each user identifier is a
    key of at most one room's mapping.  (The handler of [join_room] does not
    look at other rooms; see [join_two_rooms].) *)
Theorem single_room_when_joins_are_exclusive (json_loads : string → result pyval)
    (isoformat : Z → string) (stored : list doc) (trace : list (env * string * request)) :
  one_room_at_a_time json_loads isoformat trace (initial_world stored) →
  single_room (users_in_rooms (run json_loads isoformat trace (initial_world stored))).
Proof.
  apply run_single_room. intros u r1 r2 [? H]. by cbv in H.
Qed.

(** *** The classifier *)

Lemma moderate_message_try_transport json_loads (m : gemini_model) text (w : world) ex :
  m (moderation_prompt text) = Raise ex →
  (moderate_message_try json_loads m text w).2 = Raise ex.
Proof. intros H. unfold moderate_message_try. run_M. by rewrite H. Qed.

Lemma moderate_message_try_parse json_loads (m : gemini_model) text (w : world)
    response_text parts candidates ex :
  m (moderation_prompt text) = Ok ((response_text :: parts) :: candidates) →
  json_loads response_text = Raise ex →
  (moderate_message_try json_loads m text w).2 = Raise ex.
Proof. intros H1 H2. unfold moderate_message_try. run_M. rewrite H1. simpl. by rewrite H2. Qed.

Lemma moderate_message_try_decoded json_loads (m : gemini_model) text (w : world)
    response_text parts candidates d :
  m (moderation_prompt text) = Ok ((response_text :: parts) :: candidates) →
  json_loads response_text = Ok (PDict d) →
  (moderate_message_try json_loads m text w).2
  = Ok (if truthy (default PNone (d !! "is_safe")) then Verdict "safe" (PStr "N/A")
        else Verdict "unsafe" (default (PStr "Content flagged by AI.") (d !! "reason"))).
Proof.
  intros H1 H2. unfold moderate_message_try. run_M. rewrite H1. simpl. rewrite H2. simpl.
  by destruct (truthy _).
Qed.

(** The [except] clause turns every exception of the [try] block into a
    verdict, and lets a verdict through. *)
Lemma moderate_message_catches json_loads (e : env) (m : gemini_model) text (w : world) :
  model e = Some m →
  ∃ v w', moderate_message json_loads e text w = (w', Ok v)
    ∧ (∀ v1, (moderate_message_try json_loads m text w).2 = Ok v1 → v = v1)
    ∧ (∀ ex, (moderate_message_try json_loads m text w).2 = Raise ex → v = error_verdict ex).
Proof.
  intros Hm. unfold moderate_message, try_except. rewrite Hm.
  destruct (moderate_message_try json_loads m text w) as [w1 [v|ex]]; simpl.
  - exists v, w1. split_and!; [done|by intros ? [= <-]|done].
  - run_M. eexists _, _. split_and!; [reflexivity|done|by intros ? [= <-]].
Qed.

(** C2: for every text, awaiting [moderate_message] returns a verdict and
    raises nothing.  Without a model the verdict is [skipped] with reason
    "AI unavailable"; when the response decodes to an object whose [is_safe]
    is true it is [safe] with reason "N/A"; when [is_safe] is false it is
    [unsafe] with the response's reason, or "Content flagged by AI." when the
    response has none; and whatever the statements under [try:] raise (the
    call to the model, an empty response, the JSON decoder) becomes [error]
    with reason "AI moderation failed: " followed by the exception's text. *)
Theorem moderate_message_verdict (json_loads : string → result pyval) (e : env)
    (text : string) (w : world) :
  ∃ v w', moderate_message json_loads e text w = (w', Ok v)
    ∧ (model e = None → v = Verdict "skipped" (PStr "AI unavailable"))
    ∧ (∀ m response_text parts candidates d,
          model e = Some m →
          m (moderation_prompt text) = Ok ((response_text :: parts) :: candidates) →
          json_loads response_text = Ok (PDict d) →
          (d !! "is_safe" = Some (PBool true) → v = Verdict "safe" (PStr "N/A"))
          ∧ (d !! "is_safe" = Some (PBool false) →
               v = Verdict "unsafe" (default (PStr "Content flagged by AI.") (d !! "reason"))))
    ∧ (∀ m ex, model e = Some m → m (moderation_prompt text) = Raise ex → v = error_verdict ex)
    ∧ (∀ m response_text parts candidates ex,
          model e = Some m →
          m (moderation_prompt text) = Ok ((response_text :: parts) :: candidates) →
          json_loads response_text = Raise ex → v = error_verdict ex)
    ∧ (∀ m ex w1, model e = Some m →
          moderate_message_try json_loads m text w = (w1, Raise ex) → v = error_verdict ex).
Proof.
  destruct (model e) as [m|] eqn:Hm.
  - destruct (moderate_message_catches json_loads e m text w Hm) as (v & w' & Hrun & Hok & Herr).
    exists v, w'. split_and!; [done|done| | | |].
    + intros ????? [= <-] Hcall Hjson.
      pose proof (moderate_message_try_decoded json_loads m text w _ _ _ _ Hcall Hjson) as Htry.
      split; intros Hd; rewrite Hd in Htry; simpl in Htry; by apply Hok in Htry.
    + intros ?? [= <-] Hcall. apply Herr. by apply moderate_message_try_transport.
    + intros ????? [= <-] Hcall Hjson. apply Herr.
      by eapply moderate_message_try_parse.
    + intros ??? [= <-] Htry. apply Herr. by rewrite Htry.
  - unfold moderate_message. rewrite Hm. run_M. eexists _, _.
    split; [reflexivity|]. by split_and!.
Qed.

(** *** The history sent on joining *)

Lemma string_leb_trans (a b c : string) :
  String.leb a b = true → String.leb b c = true → String.leb a c = true.
Proof.
  unfold String.leb.
  destruct (String.compare a b) eqn:Hab; [| |discriminate];
    destruct (String.compare b c) eqn:Hbc; [| |discriminate| | |discriminate]; intros _ _.
  - apply String.compare_eq_iff in Hab as ->. by rewrite Hbc.
  - apply String.compare_eq_iff in Hab as ->. by rewrite Hbc.
  - apply String.compare_eq_iff in Hbc as <-. by rewrite Hab.
  - apply OrderedTypeEx.String_as_OT.cmp_lt in Hab, Hbc.
    pose proof (OrderedTypeEx.String_as_OT.lt_trans _ _ _ Hab Hbc) as Hac.
    apply OrderedTypeEx.String_as_OT.cmp_lt in Hac.
    unfold OrderedTypeEx.String_as_OT.cmp in Hac. by rewrite Hac.
Qed.

Lemma ts_le_total a b : ts_le a b ∨ ts_le b a.
Proof. destruct a, b; simpl; auto; lia. Qed.

Lemma ts_le_trans a b c : ts_le a b → ts_le b c → ts_le a c.
Proof. destruct a, b, c; simpl; auto; try done; lia. Qed.

#[global] Instance doc_le_total : Total doc_le.
Proof.
  intros d1 d2. unfold doc_le.
  destruct (decide (ts_le (doc_timestamp d1) (doc_timestamp d2))) as [H12|H12],
    (decide (ts_le (doc_timestamp d2) (doc_timestamp d1))) as [H21|H21].
  - destruct (String.leb_total (doc_id d1) (doc_id d2)); [left|right]; done.
  - left. done.
  - right. done.
  - by destruct (ts_le_total (doc_timestamp d1) (doc_timestamp d2)).
Qed.

#[global] Instance doc_le_trans : Transitive doc_le.
Proof.
  intros d1 d2 d3 [H12 N12] [H23 N23]. split.
  - by eapply ts_le_trans.
  - intros H31. eapply string_leb_trans.
    + apply N12. by eapply ts_le_trans.
    + apply N23. by eapply ts_le_trans.
Qed.







(** *** [send_message]: what a valid message runs into *)

(** Line 225 binds [moderation_result] to a coroutine object, which line 226
    subscripts: a valid message ends there, after the line that announces it. *)
Lemma handle_message_valid json_loads isoformat (e : env) request_sid data (w : world)
    room user_id username message_text :
  given data "room" room → given data "userId" user_id →
  given data "username" username → given data "message" message_text →
  handle_message json_loads isoformat e request_sid data w
  = (set_stdout (λ l, l ++ ["Received message from " +:+ username +:+ " in room " +:+ room
                              +:+ ": " +:+ message_text]) w,
     Raise (Exn "TypeError" "'coroutine' object is not subscriptable")).
Proof.
  intros [Hr Hroom]%not_given [Hu Huser]%not_given [Hn Hname]%not_given [Hm Hmsg]%not_given.
  unfold handle_message, handle_message_from.
  rewrite Hr, Hu, Hn, Hm, Hroom, Huser, Hname, Hmsg. by run_M.
Qed.

(** Lines 226-259 with a verdict in hand: the store is tried, a failure is
    reported to the sender (and so is a write that went through, since line
    244 asks the returned pair for an [id]), and line 253 raises before
    [emit] is reached. *)
Lemma handle_message_from_verdict isoformat (e : env) request_sid room user_id username
    message_text (v : verdict) (w : world) :
  ∃ w', handle_message_from isoformat e request_sid room user_id username message_text
          SERVER_TIMESTAMP (Value v) w
        = (w', Raise (Exn "TypeError"
                        "isinstance() arg 2 must be a type, a tuple of types, or a union"))
    ∧ outbox w' = outbox w ++
        match db e with
        | Some client =>
            let ex := match add_outcome client with
                      | Raise ex => ex
                      | Ok doc_ref => Exn "AttributeError" "'tuple' object has no attribute 'id'"
                      end in
            [Emitted (error_ev ("Failed to save message: " +:+ exn_str ex))
                     request_sid None (rooms w !!! request_sid)]
        | None => []
        end
    ∧ (db e = None → calls w' = calls w).
Proof.
  unfold handle_message_from. run_M. simpl.
  destruct (db e) as [client|]; simpl.
  - unfold add, tuple_id. run_M. simpl.
    destruct (add_outcome client) as [[doc_id now]|ex]; simpl;
      (eexists; split; [reflexivity|]); simpl; done.
  - eexists; split; [reflexivity|]. simpl. by rewrite app_nil_r.
Qed.

(** C1 (the code departs from it): Bob, connection s2, sends "hello" to room
    r1 in which s1 and s2 are subscribed; the classifier and the store are
    there.  The handler raises at line 226 and emits nothing: no
    [receive_message] reaches s1 or s2. *)
Theorem valid_message_is_not_broadcast :
  let w := alice_and_bob in
  let r := handle_message sample_loads sample_isoformat served "s2"
             (message_data "r1" "u2" "Bob" "hello") w in
  rooms w !!! "r1" = ({[ "s1"; "s2" ]} : gset string)
  ∧ r.2 = Raise (Exn "TypeError" "'coroutine' object is not subscriptable")
  ∧ outbox r.1 = outbox w
  ∧ calls r.1 = [].
Proof.
  cbv zeta.
  rewrite (handle_message_valid _ _ _ _ _ _ "r1" "u2" "Bob" "hello") by done.
  cbn [fst snd]. split_and!; [by vm_compute|reflexivity..|by vm_compute].
Qed.

(** C6 (the code departs from it): the store raises on [add].  Bob's valid
    message never gets as far as the store: the handler raises at line 226
    with nothing emitted and no call made.  Were line 225 to yield a verdict,
    the failed write would be reported to s2 alone, and line 253 would then
    raise: in neither case is [receive_message] emitted. *)
Theorem failed_write_is_not_followed_by_broadcast :
  let w := alice_and_bob in
  let r := handle_message sample_loads sample_isoformat served_failing_store "s2"
             (message_data "r1" "u2" "Bob" "hello") w in
  let r' := handle_message_from sample_isoformat served_failing_store "s2"
              "r1" "u2" "Bob" "hello" SERVER_TIMESTAMP
              (Value (Verdict "safe" (PStr "N/A"))) w in
  (r.2 = Raise (Exn "TypeError" "'coroutine' object is not subscriptable")
   ∧ outbox r.1 = outbox w ∧ calls r.1 = [])
  ∧ (r'.2 = Raise (Exn "TypeError"
                     "isinstance() arg 2 must be a type, a tuple of types, or a union")
     ∧ outbox r'.1 = outbox w ++
         [Emitted (error_ev "Failed to save message: 503 store unavailable") "s2" None {[ "s2" ]}]).
Proof.
  cbv zeta. split.
  - rewrite (handle_message_valid _ _ _ _ _ _ "r1" "u2" "Bob" "hello") by done.
    cbn [fst snd]. split_and!; [reflexivity..|by vm_compute].
  - destruct (handle_message_from_verdict sample_isoformat served_failing_store "s2"
                "r1" "u2" "Bob" "hello" (Verdict "safe" (PStr "N/A")) alice_and_bob)
      as (w' & Hrun & Hout & _).
    rewrite Hrun. cbn [fst snd]. rewrite Hout. split; [reflexivity|].
    cbn [db served_failing_store add_outcome failing_store exn_str]. by do 3 f_equal.
Qed.

(** C9 (the code departs from it): no store is configured.  Bob's valid
    message makes no call to the store and draws no [error], but the handler
    does not go on to the broadcast: it raises at line 226, and with a
    verdict in hand it would raise at line 253, [receive_message] not
    emitted. *)
Theorem missing_store_is_not_followed_by_broadcast :
  let w := alice_and_bob in
  let r := handle_message sample_loads sample_isoformat served_without_store "s2"
             (message_data "r1" "u2" "Bob" "hello") w in
  let r' := handle_message_from sample_isoformat served_without_store "s2"
              "r1" "u2" "Bob" "hello" SERVER_TIMESTAMP
              (Value (Verdict "safe" (PStr "N/A"))) w in
  (r.2 = Raise (Exn "TypeError" "'coroutine' object is not subscriptable")
   ∧ outbox r.1 = outbox w ∧ calls r.1 = [])
  ∧ (r'.2 = Raise (Exn "TypeError"
                     "isinstance() arg 2 must be a type, a tuple of types, or a union")
     ∧ outbox r'.1 = outbox w ∧ calls r'.1 = []).
Proof.
  cbv zeta. split.
  - rewrite (handle_message_valid _ _ _ _ _ _ "r1" "u2" "Bob" "hello") by done.
    cbn [fst snd]. split_and!; [reflexivity..|by vm_compute].
  - destruct (handle_message_from_verdict sample_isoformat served_without_store "s2"
                "r1" "u2" "Bob" "hello" (Verdict "safe" (PStr "N/A")) alice_and_bob)
      as (w' & Hrun & Hout & Hcalls).
    rewrite Hrun. cbn [fst snd]. rewrite Hout, (Hcalls eq_refl).
    cbn [db served_without_store]. rewrite app_nil_r.
    split_and!; [reflexivity..|by vm_compute].
Qed.

(** *** [disconnect] *)

(** The loop looks for the connection's [sid] among the keys of each room's
    mapping; where no mapping has that key it changes nothing and emits
    nothing. *)
Lemma handle_disconnect_loop_no_key request_sid items (w : world) :
  (∀ room_id users, (room_id, users) ∈ items → users !! request_sid = None) →
  handle_disconnect_loop request_sid items w = (w, Ok tt).
Proof.
  induction items as [|[room_id users] rest IH]; intros Hkeys; simpl; [done|].
  rewrite bool_decide_eq_false_2.
  - apply IH. intros r u Hin. apply (Hkeys r u). by right.
  - rewrite (Hkeys room_id users) by left. by intros [? [=]].
Qed.

(** C3 (the code departs from it): Alice's connection s1, which joined room
    r1 as user u1, disconnects.  The mappings are keyed by [userId] (line
    150) and the handler looks for the key s1, so u1 stays in r1's mapping
    and the outbox is as before: Bob receives no [user_left]. *)
Theorem disconnect_leaves_member_behind :
  let w := alice_and_bob in
  let w' := serve sample_loads sample_isoformat bare "s1" disconnect w in
  lookup_member "r1" "u1" (users_in_rooms w) = Some "Alice"
  ∧ lookup_member "r1" "u1" (users_in_rooms w') = Some "Alice"
  ∧ outbox w' = outbox w.
Proof. cbv zeta. split_and!; by vm_compute. Qed.

(** *** Instances *)

(** C5 at a message whose text is empty: only the [error] to s2 is added. *)
Lemma handle_message_validation_failure_example :
  ∃ w', handle_message sample_loads sample_isoformat served "s2"
          (message_data "r1" "u2" "Bob" "") alice_and_bob = (w', Ok tt)
    ∧ outbox w' = outbox alice_and_bob ++
        [Emitted (error_ev "Room, userId, username, and message are required.")
                 "s2" None (rooms alice_and_bob !!! "s2")]
    ∧ calls w' = calls alice_and_bob
    ∧ collection w' = collection alice_and_bob
    ∧ users_in_rooms w' = users_in_rooms alice_and_bob
    ∧ rooms w' = rooms alice_and_bob.
Proof.
  apply (handle_message_validation_failure sample_loads sample_isoformat served "s2"
           (message_data "r1" "u2" "Bob" "") alice_and_bob).
  right; right; right. right. vm_compute. reflexivity.
Defined.

(** C8 at a user who never joined r1. *)
Lemma handle_leave_room_not_member_example :
  ∃ w', handle_leave_room "s2" (leave_data "r1" "u9") alice_and_bob = (w', Ok tt)
    ∧ outbox w' = outbox alice_and_bob
    ∧ users_in_rooms w' = users_in_rooms alice_and_bob
    ∧ calls w' = calls alice_and_bob
    ∧ stdout w' = stdout alice_and_bob ++
        ["User " +:+ "u9" +:+ " tried to leave room " +:+ "r1" +:+ " but was not found."].
Proof.
  apply (handle_leave_room_not_member "s2" (leave_data "r1" "u9") alice_and_bob "r1" "u9").
  - split; [vm_compute; reflexivity | discriminate].
  - split; [vm_compute; reflexivity | discriminate].
  - vm_compute. reflexivity.
Defined.

(** C10 at the same request: s2 is out of r1's group although u9 was never
    a member. *)
Lemma handle_leave_room_unsubscribes_example :
  "s2" ∈ rooms alice_and_bob !!! "r1"
  ∧ "s2" ∉ rooms (handle_leave_room "s2" (leave_data "r1" "u9") alice_and_bob).1 !!! "r1".
Proof.
  split.
  - vm_compute rooms. set_solver.
  - apply (handle_leave_room_unsubscribes "s2" (leave_data "r1" "u9") alice_and_bob "r1" "u9").
    + split; [vm_compute; reflexivity | discriminate].
    + split; [vm_compute; reflexivity | discriminate].
Defined.

(** C7 as stated fails: a connection joins r1 and then r2 under the same
    user identifier; the second join does not touch r1's mapping, and u1 is
    a key of both. *)
Lemma join_two_rooms :
  ¬ single_room
      (users_in_rooms
         (run sample_loads sample_isoformat
            [ (bare, "s1", connect);
              (bare, "s1", join_room_ev (join_data "r1" "u1" "Alice"));
              (bare, "s1", join_room_ev (join_data "r2" "u1" "Alice")) ]
            (initial_world []))).
Proof.
  intros H. specialize (H "u1" "r1" "r2").
  assert ("r1" = "r2") as [=]. apply H; vm_compute; eauto.
Qed.

(** C7 as amended, at a run in which u1 leaves r1 before joining r2. *)
Lemma single_room_when_joins_are_exclusive_example :
  single_room
    (users_in_rooms
       (run sample_loads sample_isoformat
          [ (bare, "s1", connect);
            (bare, "s1", join_room_ev (join_data "r1" "u1" "Alice"));
            (bare, "s1", leave_room_ev (leave_data "r1" "u1"));
            (bare, "s1", join_room_ev (join_data "r2" "u1" "Alice"));
            (bare, "s1", disconnect) ]
          (initial_world []))).
Proof.
  apply (single_room_when_joins_are_exclusive sample_loads sample_isoformat []).
  cbn [one_room_at_a_time]. split_and!; try (by intros []); try exact I.
  - intros [_ (other & _ & [n Hn])]. vm_compute in Hn. discriminate.
  - intros [_ (other & Hne & [n Hn])]. revert Hne Hn.
    match goal with |- context [users_in_rooms ?w] =>
      let d := eval vm_compute in (users_in_rooms w) in change (users_in_rooms w) with d end.
    unfold lookup_member. cbn [dict_lookup].
    change (str_of (join_data "r2" "u1" "Alice" !! "room")) with "r2".
    intros Hne. destruct (String.eqb_spec "r1" other) as [<-|_]; [|discriminate].
    vm_compute. discriminate.
Defined.



(** C2 at a model whose response decodes with [is_safe] true, at one whose
    response has [is_safe] false and no reason, and without a model. *)
Lemma moderate_message_verdict_example :
  (moderate_message sample_loads served "hello" (initial_world [])).2
    = Ok (Verdict "safe" (PStr "N/A"))
  ∧ (moderate_message sample_loads (Env None (Some (answering "FLAGGED")) ∅) "hello"
       (initial_world [])).2
    = Ok (Verdict "unsafe" (PStr "Content flagged by AI."))
  ∧ (moderate_message sample_loads bare "hello" (initial_world [])).2
    = Ok (Verdict "skipped" (PStr "AI unavailable")).
Proof.
  split_and!.
  - destruct (moderate_message_verdict sample_loads served "hello" (initial_world []))
      as (v & w' & Hrun & _ & Hdecoded & _).
    rewrite Hrun. cbn [snd]. f_equal.
    eapply (Hdecoded (answering "SAFE") "SAFE" [] []); reflexivity.
  - destruct (moderate_message_verdict sample_loads (Env None (Some (answering "FLAGGED")) ∅)
                "hello" (initial_world []))
      as (v & w' & Hrun & _ & Hdecoded & _).
    rewrite Hrun. cbn [snd]. f_equal.
    destruct (Hdecoded (answering "FLAGGED") "FLAGGED" [] [] {[ "is_safe" := PBool false ]}
                eq_refl eq_refl eq_refl) as [_ Hunsafe].
    rewrite Hunsafe; reflexivity.
  - destruct (moderate_message_verdict sample_loads bare "hello" (initial_world []))
      as (v & w' & Hrun & Hskipped & _).
    rewrite Hrun. cbn [snd]. f_equal. by apply Hskipped.
Defined.

(** *** Further properties of the handlers *)

(** Every [send_message] event that passes validation ends at line 226 with
    a [TypeError]: nothing is emitted, and neither the classifier nor the
    store is called. *)
Theorem valid_message_raises (json_loads : string → result pyval) (isoformat : Z → string)
    (e : env) (request_sid : string) (data : gmap string string) (w : world)
    (room user_id username message_text : string) :
  given data "room" room → given data "userId" user_id →
  given data "username" username → given data "message" message_text →
  let r := handle_message json_loads isoformat e request_sid data w in
  r.2 = Raise (Exn "TypeError" "'coroutine' object is not subscriptable")
  ∧ outbox r.1 = outbox w
  ∧ calls r.1 = calls w
  ∧ collection r.1 = collection w.
Proof.
  intros Hr Hu Hn Hm. cbv zeta.
  by rewrite (handle_message_valid _ _ _ _ _ _ room user_id username message_text).
Qed.

Lemma valid_message_raises_example :
  let r := handle_message sample_loads sample_isoformat served "s2"
             (message_data "r1" "u2" "Bob" "hello") alice_and_bob in
  r.2 = Raise (Exn "TypeError" "'coroutine' object is not subscriptable")
  ∧ outbox r.1 = outbox alice_and_bob
  ∧ calls r.1 = calls alice_and_bob
  ∧ collection r.1 = collection alice_and_bob.
Proof.
  apply (valid_message_raises sample_loads sample_isoformat served "s2"
           (message_data "r1" "u2" "Bob" "hello") alice_and_bob "r1" "u2" "Bob" "hello");
    (split; [vm_compute; reflexivity | discriminate]).
Defined.

(** Lines 226-259 run with a verdict dictionary: whatever the store does,
    the block ends at line 253 with a [TypeError]; the only event it may
    have emitted by then is the [error] about a failed write, addressed to
    the sender's own group. *)
Theorem verdict_in_hand_raises_before_broadcast (isoformat : Z → string) (e : env)
    (request_sid room user_id username message_text : string) (v : verdict) (w : world) :
  let r := handle_message_from isoformat e request_sid room user_id username message_text
             SERVER_TIMESTAMP (Value v) w in
  r.2 = Raise (Exn "TypeError"
                 "isinstance() arg 2 must be a type, a tuple of types, or a union")
  ∧ ∀ x, x ∈ drop (length (outbox w)) (outbox r.1) →
         (∃ message, ev x = error_ev message) ∧ to x = request_sid ∧ skip_sid x = None.
Proof.
  cbv zeta.
  destruct (handle_message_from_verdict isoformat e request_sid room user_id username
              message_text v w) as (w' & Hrun & Hout & _).
  rewrite Hrun. cbn [fst snd]. split; [done|]. rewrite Hout, drop_app_length.
  destruct (db e) as [client|]; intros x Hx; [|by apply elem_of_nil in Hx].
  apply list_elem_of_singleton in Hx as ->. simpl. eauto.
Qed.

(** A [join_room] event with a missing or empty field emits one [error] to
    the requesting connection's own group and changes nothing else. *)
Theorem handle_join_room_validation_failure (isoformat : Z → string) (e : env)
    (request_sid : string) (data : gmap string string) (w : world) :
  absent data "room" ∨ absent data "userId" ∨ absent data "username" →
  ∃ w', handle_join_room isoformat e request_sid data w = (w', Ok tt)
    ∧ outbox w' = outbox w ++
        [Emitted (error_ev "Room, userId, and username are required to join.")
                 request_sid None (rooms w !!! request_sid)]
    ∧ users_in_rooms w' = users_in_rooms w
    ∧ rooms w' = rooms w
    ∧ calls w' = calls w.
Proof.
  intros H. unfold handle_join_room.
  assert (not_ (data !! "room") || not_ (data !! "userId") || not_ (data !! "username")
          = true) as ->.
  { destruct H as [H|[H|H]]; apply not_absent in H; rewrite H; rewrite ?orb_true_r; done. }
  run_M. eexists. split; [reflexivity|]. simpl. done.
Qed.

Lemma handle_join_room_validation_failure_example :
  ∃ w', handle_join_room sample_isoformat served "s2" (leave_data "r1" "u2") alice_and_bob
        = (w', Ok tt)
    ∧ outbox w' = outbox alice_and_bob ++
        [Emitted (error_ev "Room, userId, and username are required to join.")
                 "s2" None (rooms alice_and_bob !!! "s2")]
    ∧ users_in_rooms w' = users_in_rooms alice_and_bob
    ∧ rooms w' = rooms alice_and_bob
    ∧ calls w' = calls alice_and_bob.
Proof.
  apply (handle_join_room_validation_failure sample_isoformat served "s2"
           (leave_data "r1" "u2") alice_and_bob).
  right; right. left. vm_compute. reflexivity.
Defined.

(** A valid [join_room] served while no store is configured still
    subscribes the connection and records the membership; the others in the
    room get [user_joined], and the joining connection's own group gets the
    [error] about the history. *)
Theorem handle_join_room_without_store (isoformat : Z → string) (e : env)
    (request_sid : string) (data : gmap string string) (w : world)
    (room user_id username : string) :
  given data "room" room → given data "userId" user_id → given data "username" username →
  db e = None →
  ∃ w', handle_join_room isoformat e request_sid data w = (w', Ok tt)
    ∧ lookup_member room user_id (users_in_rooms w') = Some username
    ∧ request_sid ∈ rooms w' !!! room
    ∧ outbox w' = outbox w ++
        [Emitted (user_joined user_id username) room (Some request_sid)
                 (rooms w !!! room ∖ {[request_sid]});
         Emitted (error_ev "Firestore not available, cannot load history.")
                 request_sid None (rooms w' !!! request_sid)]
    ∧ calls w' = calls w.
Proof.
  intros Hr Hu Hn Hdb.
  pose proof (handle_join_room_members isoformat e request_sid data w) as Hj.
  destruct (not_given _ _ _ Hr) as [Hr1 Hr2], (not_given _ _ _ Hu) as [Hu1 Hu2],
    (not_given _ _ _ Hn) as [Hn1 Hn2].
  cbv zeta in Hj. rewrite Hr1, Hu1, Hn1, Hr2, Hu2, Hn2 in Hj. cbn [orb] in Hj.
  specialize (Hj room user_id). rewrite decide_True in Hj by done.
  revert Hj. unfold handle_join_room. rewrite Hr1, Hu1, Hn1, Hr2, Hu2, Hn2, Hdb.
  run_M. simpl.
  destruct (dict_lookup room (users_in_rooms w)); simpl; intros Hj;
    (eexists; split; [reflexivity|]); simpl;
    (split_and!; [done| |rewrite <- app_assoc; simpl; do 3 f_equal|done]);
    rewrite ?lookup_total_insert_eq; set_solver.
Qed.

Lemma handle_join_room_without_store_example :
  ∃ w', handle_join_room sample_isoformat bare "s3" (join_data "r1" "u3" "Carol") alice_and_bob
        = (w', Ok tt)
    ∧ lookup_member "r1" "u3" (users_in_rooms w') = Some "Carol"
    ∧ "s3" ∈ rooms w' !!! "r1"
    ∧ outbox w' = outbox alice_and_bob ++
        [Emitted (user_joined "u3" "Carol") "r1" (Some "s3")
                 (rooms alice_and_bob !!! "r1" ∖ {[ "s3" ]});
         Emitted (error_ev "Firestore not available, cannot load history.")
                 "s3" None (rooms w' !!! "s3")]
    ∧ calls w' = calls alice_and_bob.
Proof.
  apply (handle_join_room_without_store sample_isoformat bare "s3"
           (join_data "r1" "u3" "Carol") alice_and_bob "r1" "u3" "Carol");
    [split; [vm_compute; reflexivity | discriminate]..|reflexivity].
Defined.

Lemma dict_alter_first {V : Type} (f : V → V) (k : string) (v : V)
    (before after : list (string * V)) :
  (∀ k' v', (k', v') ∈ before → k' ≠ k) →
  dict_alter f k (before ++ (k, v) :: after) = before ++ (k, f v) :: after.
Proof.
  induction before as [|[k0 v0] before IH]; intros Hkeys; simpl.
  - by rewrite String.eqb_refl.
  - destruct (String.eqb_spec k0 k) as [->|_].
    + by destruct (Hkeys k v0); [left|].
    + rewrite IH; [done|]. intros k' v' Hin. apply (Hkeys k' v'). by right.
Qed.

Lemma handle_disconnect_loop_first request_sid room_id users
    (before after : list (string * gmap string string)) (w : world) :
  (∀ r u, (r, u) ∈ before → u !! request_sid = None) →
  is_Some (users !! request_sid) →
  handle_disconnect_loop request_sid (before ++ (room_id, users) :: after) w
  = handle_disconnect_loop request_sid [(room_id, users)] w.
Proof.
  intros Hkeys Hin. induction before as [|[r u] before IH]; simpl.
  - by rewrite bool_decide_eq_true_2.
  - rewrite bool_decide_eq_false_2.
    + rewrite IH; [by simpl|]. intros r' u' H. apply (Hkeys r' u'). by right.
    + rewrite (Hkeys r u) by left. by intros [? [=]].
Qed.

(** When the disconnecting connection's [sid] is a key of some room's
    mapping (a client that joined with its [sid] as [userId]), the handler
    deletes that key from the first such room only and emits one
    [user_left] with the name "A user" to the others in that room. *)
Theorem handle_disconnect_first_match (request_sid room_id : string)
    (users : gmap string string) (before after : list (string * gmap string string))
    (w : world) :
  users_in_rooms w = before ++ (room_id, users) :: after →
  (∀ r u, (r, u) ∈ before → u !! request_sid = None ∧ r ≠ room_id) →
  is_Some (users !! request_sid) →
  ∃ w', handle_disconnect request_sid w = (w', Ok tt)
    ∧ users_in_rooms w' = before ++ (room_id, delete request_sid users) :: after
    ∧ outbox w' = outbox w ++
        [Emitted (user_left request_sid "A user") room_id (Some request_sid)
                 (rooms w !!! room_id ∖ {[request_sid]})].
Proof.
  intros Hd Hbefore Hin. unfold handle_disconnect. run_M.
  cbn [users_in_rooms set_stdout]. rewrite Hd.
  rewrite handle_disconnect_loop_first; [|naive_solver|done].
  simpl. rewrite bool_decide_eq_true_2 by done. run_M. simpl.
  eexists. split; [reflexivity|]. simpl. split; [|done].
  rewrite Hd. apply dict_alter_first. naive_solver.
Qed.

Lemma handle_disconnect_first_match_example :
  let w := run sample_loads sample_isoformat
             [ (bare, "s1", connect); (bare, "s1", join_room_ev (join_data "r1" "s1" "Alice"));
               (bare, "s2", connect); (bare, "s2", join_room_ev (join_data "r1" "u2" "Bob")) ]
             (initial_world []) in
  ∃ w', handle_disconnect "s1" w = (w', Ok tt)
    ∧ users_in_rooms w' = [("r1", delete "s1" {[ "s1" := "Alice"; "u2" := "Bob" ]})]
    ∧ outbox w' = outbox w ++
        [Emitted (user_left "s1" "A user") "r1" (Some "s1") (rooms w !!! "r1" ∖ {[ "s1" ]})].
Proof.
  cbv zeta.
  apply (handle_disconnect_first_match "s1" "r1" {[ "s1" := "Alice"; "u2" := "Bob" ]} [] []).
  - vm_compute. reflexivity.
  - intros r u Hin. by apply elem_of_nil in Hin.
  - exists "Alice". vm_compute. reflexivity.
Defined.

(** *** More on the classifier *)

Lemma moderate_message_try_world json_loads (m : gemini_model) text (w : world) :
  (moderate_message_try json_loads m text w).1
  = set_calls (λ l, l ++ [generate_content (moderation_prompt text)]) w.
Proof.
  unfold moderate_message_try. run_M.
  destruct (m (moderation_prompt text)) as [[|[|response_text parts] candidates]|ex]; simpl;
    try done.
  destruct (json_loads response_text) as [[| | | | |d]|ex]; simpl; try done.
  by destruct (truthy _).
Qed.

(** The verdict for a response that decodes to an object is decided by the
    truth value of what it holds under [is_safe]: anything falsy, and a
    missing [is_safe] too, gives [unsafe], with the object's [reason] or,
    without one, "Content flagged by AI."; anything truthy gives [safe]. *)
Theorem moderate_message_decoded_object (json_loads : string → result pyval) (e : env)
    (m : gemini_model) (text : string) (w : world) (response_text : string)
    (parts : list string) (candidates : list (list string)) (d : gmap string pyval) :
  model e = Some m →
  m (moderation_prompt text) = Ok ((response_text :: parts) :: candidates) →
  json_loads response_text = Ok (PDict d) →
  (moderate_message json_loads e text w).2
  = Ok (if truthy (default PNone (d !! "is_safe")) then Verdict "safe" (PStr "N/A")
        else Verdict "unsafe" (default (PStr "Content flagged by AI.") (d !! "reason")))
  ∧ (d !! "is_safe" = None →
     (moderate_message json_loads e text w).2
     = Ok (Verdict "unsafe" (default (PStr "Content flagged by AI.") (d !! "reason")))).
Proof.
  intros Hm Hcall Hjson.
  destruct (moderate_message_catches json_loads e m text w Hm) as (v & w' & Hrun & Hok & _).
  pose proof (moderate_message_try_decoded json_loads m text w _ _ _ _ Hcall Hjson) as Htry.
  apply Hok in Htry. rewrite Hrun. cbn [snd]. rewrite Htry. split; [done|].
  by intros ->.
Qed.

Lemma moderate_message_decoded_object_example :
  (moderate_message sample_loads (Env None (Some (answering "PROFANITY")) ∅) "bad word"
     (initial_world [])).2
  = Ok (Verdict "unsafe" (PStr "profanity")).
Proof.
  exact (proj1 (moderate_message_decoded_object sample_loads
           (Env None (Some (answering "PROFANITY")) ∅) (answering "PROFANITY") "bad word"
           (initial_world []) "PROFANITY" [] []
           {[ "is_safe" := PBool false; "reason" := PStr "profanity" ]}
           eq_refl eq_refl eq_refl)).
Defined.

(** A response that is valid JSON but not an object (a list, a string, a
    number, [null]) has no [get]: the [AttributeError] is caught and the
    verdict is [error], naming the type. *)
Theorem moderate_message_not_an_object (json_loads : string → result pyval) (e : env)
    (m : gemini_model) (text : string) (w : world) (response_text : string)
    (parts : list string) (candidates : list (list string)) (v : pyval) :
  model e = Some m →
  m (moderation_prompt text) = Ok ((response_text :: parts) :: candidates) →
  json_loads response_text = Ok v →
  (∀ d, v ≠ PDict d) →
  (moderate_message json_loads e text w).2
  = Ok (Verdict "error"
          (PStr ("AI moderation failed: '" +:+ type_name v
                 +:+ "' object has no attribute 'get'"))).
Proof.
  intros Hm Hcall Hjson Hv.
  destruct (moderate_message_catches json_loads e m text w Hm) as (v' & w' & Hrun & _ & Herr).
  rewrite Hrun. cbn [snd]. f_equal.
  rewrite (Herr (Exn "AttributeError"
                   ("'" +:+ type_name v +:+ "' object has no attribute 'get'"))); [done|].
  unfold moderate_message_try. run_M. rewrite Hcall. simpl. rewrite Hjson. simpl.
  destruct v; try done. by destruct (Hv d).
Qed.

Lemma moderate_message_not_an_object_example :
  (moderate_message loads_a_list served "hello" (initial_world [])).2
  = Ok (Verdict "error"
          (PStr "AI moderation failed: 'list' object has no attribute 'get'")).
Proof.
  apply (moderate_message_not_an_object loads_a_list served (answering "SAFE") "hello"
           (initial_world []) "SAFE" [] [] (PList [PBool true])); try reflexivity.
  intros d. discriminate.
Defined.

(** A response with no candidate, or whose first candidate has no part,
    makes the subscript on line 98 raise; the exception is caught, and the
    verdict is [error] with a reason that starts "AI moderation failed: ". *)
Theorem moderate_message_empty_response (json_loads : string → result pyval) (e : env)
    (m : gemini_model) (text : string) (w : world) (candidates : list (list string)) :
  model e = Some m →
  m (moderation_prompt text) = Ok [] ∨ m (moderation_prompt text) = Ok ([] :: candidates) →
  ∃ detail, (moderate_message json_loads e text w).2
            = Ok (Verdict "error" (PStr ("AI moderation failed: " +:+ detail))).
Proof.
  intros Hm Hcall.
  destruct (moderate_message_catches json_loads e m text w Hm) as (v' & w' & Hrun & _ & Herr).
  rewrite Hrun. cbn [snd]. eexists. f_equal.
  rewrite (Herr (Exn "IndexError" "list index out of range")); [done|].
  unfold moderate_message_try. run_M. by destruct Hcall as [-> | ->].
Qed.

Lemma moderate_message_empty_response_example :
  ∃ detail, (moderate_message sample_loads (Env None (Some answering_nothing) ∅) "hello"
               (initial_world [])).2
            = Ok (Verdict "error" (PStr ("AI moderation failed: " +:+ detail))).
Proof.
  apply (moderate_message_empty_response sample_loads (Env None (Some answering_nothing) ∅)
           answering_nothing "hello" (initial_world []) []); [reflexivity|].
  left. reflexivity.
Defined.

(** Awaiting [moderate_message] calls the model exactly once, with the
    prompt built from the text, when a model is configured, and makes no
    call otherwise; it emits nothing and touches neither the membership
    map, nor the subscriptions, nor the collection. *)
Theorem moderate_message_effects (json_loads : string → result pyval) (e : env)
    (text : string) (w : world) :
  let w' := (moderate_message json_loads e text w).1 in
  calls w' = calls w ++
    (if model e is Some _ then [generate_content (moderation_prompt text)] else [])
  ∧ outbox w' = outbox w
  ∧ users_in_rooms w' = users_in_rooms w
  ∧ rooms w' = rooms w
  ∧ collection w' = collection w.
Proof.
  cbv zeta. unfold moderate_message. destruct (model e) as [m|].
  - unfold try_except.
    pose proof (moderate_message_try_world json_loads m text w) as Hw.
    destruct (moderate_message_try json_loads m text w) as [w1 [v|ex]]; simpl in Hw; subst w1.
    + done.
    + run_M. done.
  - run_M. simpl. by rewrite app_nil_r.
Qed.

(** *** More on joining and leaving *)

Lemma lookup_member_alter_delete (room user_id r u : string)
    (d : list (string * gmap string string)) :
  lookup_member r u (dict_alter (delete user_id) room d)
  = if decide (r = room ∧ u = user_id) then None else lookup_member r u d.
Proof.
  unfold lookup_member. rewrite dict_lookup_alter.
  destruct (decide (r = room)) as [->|Hr].
  - destruct (dict_lookup room d) as [users|]; simpl.
    + case_decide as Hc.
      * destruct Hc as [_ ->]. apply lookup_delete_eq.
      * apply lookup_delete_ne. intros ->. by apply Hc.
    + by case_decide.
  - case_decide as Hc; [by destruct Hc|done].
Qed.

(** The world a [leave_room] of a member ends in. *)
Lemma handle_leave_room_member_world request_sid data (w : world) room user_id username :
  given data "room" room → given data "userId" user_id →
  lookup_member room user_id (users_in_rooms w) = Some username →
  handle_leave_room request_sid data w
  = (World (dict_alter (delete user_id) room (users_in_rooms w))
           (<[room := rooms w !!! room ∖ {[request_sid]}]> (rooms w))
           (outbox w ++ [Emitted (user_left user_id username) room None
                                 (rooms w !!! room ∖ {[request_sid]})])
           (collection w) (calls w)
           (stdout w ++ ["User " +:+ username +:+ " (" +:+ user_id +:+ ") left room: "
                         +:+ room]),
     Ok tt).
Proof.
  intros [Hr Hroom]%not_given [Hu Huser]%not_given Hfound. unfold handle_leave_room.
  rewrite Hr, Hu, Hroom, Huser. run_M. simpl. rewrite Hfound. simpl.
  unfold set_outbox, set_stdout, set_users_in_rooms, set_rooms. simpl.
  by rewrite lookup_total_insert_eq.
Qed.

(** A [leave_room] naming a member of the room deletes that one entry and
    no other, and emits one [user_left] that carries the name recorded at
    join time (the request has no name of its own) to the room's group, from
    which the leaving connection has already been taken out. *)
Theorem handle_leave_room_member (request_sid : string) (data : gmap string string)
    (w : world) (room user_id username : string) :
  given data "room" room → given data "userId" user_id →
  lookup_member room user_id (users_in_rooms w) = Some username →
  ∃ w', handle_leave_room request_sid data w = (w', Ok tt)
    ∧ lookup_member room user_id (users_in_rooms w') = None
    ∧ (∀ r u, r ≠ room ∨ u ≠ user_id →
         lookup_member r u (users_in_rooms w') = lookup_member r u (users_in_rooms w))
    ∧ outbox w' = outbox w ++
        [Emitted (user_left user_id username) room None (rooms w !!! room ∖ {[request_sid]})]
    ∧ calls w' = calls w.
Proof.
  intros Hr Hu Hfound.
  rewrite (handle_leave_room_member_world _ _ _ _ _ _ Hr Hu Hfound).
  eexists. split; [reflexivity|]. simpl. split_and!; [| |done..].
  - rewrite lookup_member_alter_delete. by rewrite decide_True.
  - intros r u Hne. rewrite lookup_member_alter_delete.
    rewrite decide_False; [done|]. intros [-> ->]. by destruct Hne.
Qed.

Lemma handle_leave_room_member_example :
  ∃ w', handle_leave_room "s1" (leave_data "r1" "u1") alice_and_bob = (w', Ok tt)
    ∧ lookup_member "r1" "u1" (users_in_rooms w') = None
    ∧ (∀ r u, r ≠ "r1" ∨ u ≠ "u1" →
         lookup_member r u (users_in_rooms w')
         = lookup_member r u (users_in_rooms alice_and_bob))
    ∧ outbox w' = outbox alice_and_bob ++
        [Emitted (user_left "u1" "Alice") "r1" None (rooms alice_and_bob !!! "r1" ∖ {[ "s1" ]})]
    ∧ calls w' = calls alice_and_bob.
Proof.
  apply (handle_leave_room_member "s1" (leave_data "r1" "u1") alice_and_bob "r1" "u1" "Alice").
  - split; [vm_compute; reflexivity | discriminate].
  - split; [vm_compute; reflexivity | discriminate].
  - vm_compute. reflexivity.
Defined.

(** A [leave_room] event with a missing or empty [room] or [userId] emits
    one [error] to the requesting connection's own group and stops before
    [leave_room(room)]: subscriptions and membership map stay as they were. *)
Theorem handle_leave_room_validation_failure (request_sid : string)
    (data : gmap string string) (w : world) :
  absent data "room" ∨ absent data "userId" →
  ∃ w', handle_leave_room request_sid data w = (w', Ok tt)
    ∧ outbox w' = outbox w ++
        [Emitted (error_ev "Room and userId are required to leave.")
                 request_sid None (rooms w !!! request_sid)]
    ∧ rooms w' = rooms w
    ∧ users_in_rooms w' = users_in_rooms w.
Proof.
  intros H. unfold handle_leave_room.
  assert (not_ (data !! "room") || not_ (data !! "userId") = true) as ->.
  { destruct H as [H|H]; apply not_absent in H; rewrite H; rewrite ?orb_true_r; done. }
  run_M. eexists. split; [reflexivity|]. simpl. done.
Qed.

Lemma handle_leave_room_validation_failure_example :
  ∃ w', handle_leave_room "s1" (leave_data "r1" "") alice_and_bob = (w', Ok tt)
    ∧ outbox w' = outbox alice_and_bob ++
        [Emitted (error_ev "Room and userId are required to leave.")
                 "s1" None (rooms alice_and_bob !!! "s1")]
    ∧ rooms w' = rooms alice_and_bob
    ∧ users_in_rooms w' = users_in_rooms alice_and_bob.
Proof.
  apply (handle_leave_room_validation_failure "s1" (leave_data "r1" "") alice_and_bob).
  right. right. vm_compute. reflexivity.
Defined.

(** The subscriptions after a valid [join_room], and the first event it
    emits, whatever the store does afterwards. *)
Lemma handle_join_room_valid isoformat (e : env) request_sid data (w : world)
    room user_id username :
  given data "room" room → given data "userId" user_id → given data "username" username →
  let w' := (handle_join_room isoformat e request_sid data w).1 in
  rooms w' = <[room := {[request_sid]} ∪ rooms w !!! room]> (rooms w)
  ∧ ∃ rest, outbox w' = outbox w ++
      Emitted (user_joined user_id username) room (Some request_sid)
              (rooms w !!! room ∖ {[request_sid]}) :: rest.
Proof.
  intros [Hr Hroom]%not_given [Hu Huser]%not_given [Hn Hname]%not_given. cbv zeta.
  unfold handle_join_room. rewrite Hr, Hu, Hn, Hroom, Huser, Hname. run_M. simpl.
  assert (({[request_sid]} ∪ rooms w !!! room) ∖ {[request_sid]}
          = rooms w !!! room ∖ {[request_sid]}) as Haud by set_solver.
  destruct (dict_lookup room (users_in_rooms w)); simpl;
    (destruct (db e) as [client|]; simpl;
     [unfold stream; run_M; simpl; destruct (stream_outcome client); simpl|]);
    (split; [done|]); rewrite <- ?app_assoc; simpl;
    rewrite lookup_total_insert_eq, Haud; eauto.
Qed.

(** A valid [join_room] records the membership it names, overwriting the
    name of a user who is already in the room, and changes no other entry
    of any room; it subscribes the connection to the room's group and
    changes no other group.  This holds whatever the store does. *)
Theorem handle_join_room_records_membership (isoformat : Z → string) (e : env)
    (request_sid : string) (data : gmap string string) (w : world)
    (room user_id username : string) :
  given data "room" room → given data "userId" user_id → given data "username" username →
  let w' := (handle_join_room isoformat e request_sid data w).1 in
  lookup_member room user_id (users_in_rooms w') = Some username
  ∧ (∀ r u, r ≠ room ∨ u ≠ user_id →
       lookup_member r u (users_in_rooms w') = lookup_member r u (users_in_rooms w))
  ∧ rooms w' !!! room = {[request_sid]} ∪ rooms w !!! room
  ∧ (∀ other, other ≠ room → rooms w' !! other = rooms w !! other).
Proof.
  intros Hr Hu Hn. cbv zeta.
  destruct (handle_join_room_valid isoformat e request_sid data w _ _ _ Hr Hu Hn)
    as [Hrooms _].
  pose proof (handle_join_room_members isoformat e request_sid data w) as Hj.
  destruct (not_given _ _ _ Hr) as [Hr1 Hr2], (not_given _ _ _ Hu) as [Hu1 Hu2],
    (not_given _ _ _ Hn) as [Hn1 Hn2].
  cbv zeta in Hj. rewrite Hr1, Hu1, Hn1, Hr2, Hu2, Hn2 in Hj. cbn [orb] in Hj.
  split_and!.
  - rewrite Hj. by rewrite decide_True.
  - intros r u Hne. rewrite Hj. rewrite decide_False; [done|].
    intros [-> ->]. by destruct Hne.
  - rewrite Hrooms. apply lookup_total_insert_eq.
  - intros other Hne. rewrite Hrooms. by apply lookup_insert_ne.
Qed.

Lemma handle_join_room_records_membership_example :
  let w' := (handle_join_room sample_isoformat served "s1"
               (join_data "r1" "u1" "Alicia") alice_and_bob).1 in
  lookup_member "r1" "u1" (users_in_rooms alice_and_bob) = Some "Alice"
  ∧ lookup_member "r1" "u1" (users_in_rooms w') = Some "Alicia".
Proof.
  split; [vm_compute; reflexivity|].
  apply (handle_join_room_records_membership sample_isoformat served "s1"
           (join_data "r1" "u1" "Alicia") alice_and_bob "r1" "u1" "Alicia");
    (split; [vm_compute; reflexivity | discriminate]).
Defined.

(** The [user_joined] event of a valid join is the first event the handler
    emits; it reaches every connection subscribed to the room before the
    join, except the joining connection itself, which never receives it. *)
Theorem user_joined_skips_joiner (isoformat : Z → string) (e : env)
    (request_sid : string) (data : gmap string string) (w : world)
    (room user_id username : string) :
  given data "room" room → given data "userId" user_id → given data "username" username →
  let w' := (handle_join_room isoformat e request_sid data w).1 in
  ∃ x, head (emitted_since w w') = Some x
    ∧ ev x = user_joined user_id username
    ∧ (request_sid ∉ delivered x)
    ∧ (∀ s, s ∈ rooms w !!! room → s ≠ request_sid → s ∈ delivered x).
Proof.
  intros Hr Hu Hn. cbv zeta.
  destruct (handle_join_room_valid isoformat e request_sid data w _ _ _ Hr Hu Hn)
    as [_ [rest Hout]].
  unfold emitted_since. rewrite Hout, drop_app_length. eexists. split; [reflexivity|].
  simpl. split_and!; [done|set_solver|set_solver].
Qed.

Lemma user_joined_skips_joiner_example :
  let w' := (handle_join_room sample_isoformat bare "s3"
               (join_data "r1" "u3" "Carol") alice_and_bob).1 in
  ∃ x, head (emitted_since alice_and_bob w') = Some x
    ∧ ev x = user_joined "u3" "Carol"
    ∧ ("s3" ∉ delivered x)
    ∧ (∀ s, s ∈ rooms alice_and_bob !!! "r1" → s ≠ "s3" → s ∈ delivered x).
Proof.
  apply (user_joined_skips_joiner sample_isoformat bare "s3"
           (join_data "r1" "u3" "Carol") alice_and_bob "r1" "u3" "Carol");
    (split; [vm_compute; reflexivity | discriminate]).
Defined.

(** A valid [join_room] whose history query raises still joins: after
    [user_joined] the handler emits one [error] carrying the exception's
    text to the joining connection's own group, and no [chat_history]; the
    query is the only call made. *)
Theorem handle_join_room_history_failure (isoformat : Z → string) (e : env)
    (client : firestore_client) (ex : exn) (request_sid : string)
    (data : gmap string string) (w : world) (room user_id username : string) :
  given data "room" room → given data "userId" user_id → given data "username" username →
  db e = Some client →
  stream_outcome client = Some ex →
  ∃ w', handle_join_room isoformat e request_sid data w = (w', Ok tt)
    ∧ emitted_since w w' =
        [Emitted (user_joined user_id username) room (Some request_sid)
                 (rooms w !!! room ∖ {[request_sid]});
         Emitted (error_ev ("Failed to load chat history: " +:+ exn_str ex))
                 request_sid None (rooms w' !!! request_sid)]
    ∧ lookup_member room user_id (users_in_rooms w') = Some username
    ∧ request_sid ∈ rooms w' !!! room
    ∧ calls w' = calls w ++ [query_stream (collection_path e) room].
Proof.
  intros Hr Hu Hn Hdb Hstream.
  pose proof (handle_join_room_members isoformat e request_sid data w) as Hj.
  destruct (not_given _ _ _ Hr) as [Hr1 Hr2], (not_given _ _ _ Hu) as [Hu1 Hu2],
    (not_given _ _ _ Hn) as [Hn1 Hn2].
  cbv zeta in Hj. rewrite Hr1, Hu1, Hn1, Hr2, Hu2, Hn2 in Hj. cbn [orb] in Hj.
  specialize (Hj room user_id). rewrite decide_True in Hj by done.
  revert Hj. unfold handle_join_room, emitted_since.
  rewrite Hr1, Hu1, Hn1, Hr2, Hu2, Hn2, Hdb.
  unfold stream. run_M. simpl. rewrite Hstream.
  assert (({[request_sid]} ∪ rooms w !!! room) ∖ {[request_sid]}
          = rooms w !!! room ∖ {[request_sid]}) as Haud by set_solver.
  destruct (dict_lookup room (users_in_rooms w)); simpl; intros Hj;
    (eexists; split; [reflexivity|]); simpl;
    rewrite <- app_assoc, drop_app_length, lookup_total_insert_eq, Haud;
    (split_and!; [done|done|set_solver|done]).
Qed.

Lemma handle_join_room_history_failure_example :
  ∃ w', handle_join_room sample_isoformat (Env (Some unreadable_store) None ∅) "s3"
          (join_data "r1" "u3" "Carol") alice_and_bob = (w', Ok tt)
    ∧ emitted_since alice_and_bob w' =
        [Emitted (user_joined "u3" "Carol") "r1" (Some "s3")
                 (rooms alice_and_bob !!! "r1" ∖ {[ "s3" ]});
         Emitted (error_ev ("Failed to load chat history: "
                            +:+ exn_str (Exn "FailedPrecondition"
                                             "400 The query requires an index.")))
                 "s3" None (rooms w' !!! "s3")]
    ∧ lookup_member "r1" "u3" (users_in_rooms w') = Some "Carol"
    ∧ "s3" ∈ rooms w' !!! "r1"
    ∧ calls w' = calls alice_and_bob
                 ++ [query_stream (collection_path (Env (Some unreadable_store) None ∅)) "r1"].
Proof.
  apply (handle_join_room_history_failure sample_isoformat (Env (Some unreadable_store) None ∅)
           unreadable_store _ "s3" (join_data "r1" "u3" "Carol") alice_and_bob
           "r1" "u3" "Carol");
    [split; [vm_compute; reflexivity | discriminate]..|reflexivity|reflexivity].
Defined.

(** Joining a room and then leaving it under the same user identifier, on
    the same connection, takes the user out of the room's mapping, leaves
    every other entry as it was before the join, unsubscribes the
    connection, and ends with a [user_left] that carries the name given at
    the join. *)
Theorem join_then_leave (isoformat : Z → string) (e : env) (request_sid : string)
    (joining leaving : gmap string string) (w : world) (room user_id username : string) :
  given joining "room" room → given joining "userId" user_id →
  given joining "username" username →
  given leaving "room" room → given leaving "userId" user_id →
  let w1 := (handle_join_room isoformat e request_sid joining w).1 in
  let w2 := (handle_leave_room request_sid leaving w1).1 in
  lookup_member room user_id (users_in_rooms w2) = None
  ∧ (∀ r u, r ≠ room ∨ u ≠ user_id →
       lookup_member r u (users_in_rooms w2) = lookup_member r u (users_in_rooms w))
  ∧ rooms w2 !!! room = rooms w !!! room ∖ {[request_sid]}
  ∧ last (outbox w2)
    = Some (Emitted (user_left user_id username) room None
                    (rooms w !!! room ∖ {[request_sid]})).
Proof.
  intros Hr Hu Hn Hr' Hu'. cbv zeta.
  destruct (handle_join_room_valid isoformat e request_sid joining w _ _ _ Hr Hu Hn)
    as [Hrooms _].
  pose proof (handle_join_room_members isoformat e request_sid joining w) as Hj.
  destruct (not_given _ _ _ Hr) as [Hr1 Hr2], (not_given _ _ _ Hu) as [Hu1 Hu2],
    (not_given _ _ _ Hn) as [Hn1 Hn2].
  cbv zeta in Hj. rewrite Hr1, Hu1, Hn1, Hr2, Hu2, Hn2 in Hj. cbn [orb] in Hj.
  set (w1 := (handle_join_room isoformat e request_sid joining w).1) in *.
  assert (lookup_member room user_id (users_in_rooms w1) = Some username) as Hfound.
  { rewrite Hj. by rewrite decide_True. }
  rewrite (handle_leave_room_member_world _ _ _ _ _ _ Hr' Hu' Hfound). simpl.
  assert (rooms w1 !!! room ∖ {[request_sid]} = rooms w !!! room ∖ {[request_sid]}) as Haud.
  { rewrite Hrooms, lookup_total_insert_eq. set_solver. }
  split_and!.
  - rewrite lookup_member_alter_delete. by rewrite decide_True.
  - intros r u Hne. rewrite lookup_member_alter_delete, Hj.
    rewrite !decide_False; [done|intros [-> ->]; by destruct Hne..].
  - by rewrite lookup_total_insert_eq.
  - by rewrite last_snoc, Haud.
Qed.

Lemma join_then_leave_example :
  let w1 := (handle_join_room sample_isoformat bare "s3"
               (join_data "r1" "u3" "Carol") alice_and_bob).1 in
  let w2 := (handle_leave_room "s3" (leave_data "r1" "u3") w1).1 in
  lookup_member "r1" "u3" (users_in_rooms w2) = None
  ∧ (∀ r u, r ≠ "r1" ∨ u ≠ "u3" →
       lookup_member r u (users_in_rooms w2)
       = lookup_member r u (users_in_rooms alice_and_bob))
  ∧ rooms w2 !!! "r1" = rooms alice_and_bob !!! "r1" ∖ {[ "s3" ]}
  ∧ last (outbox w2)
    = Some (Emitted (user_left "u3" "Carol") "r1" None
                    (rooms alice_and_bob !!! "r1" ∖ {[ "s3" ]})).
Proof.
  apply (join_then_leave sample_isoformat bare "s3" (join_data "r1" "u3" "Carol")
           (leave_data "r1" "u3") alice_and_bob "r1" "u3" "Carol");
    (split; [vm_compute; reflexivity | discriminate]).
Defined.

(** Leaving is idempotent: after a [leave_room] that found the member, the
    same request again emits nothing and changes no entry of the mapping. *)
Theorem leave_twice (request_sid : string) (data : gmap string string) (w : world)
    (room user_id username : string) :
  given data "room" room → given data "userId" user_id →
  lookup_member room user_id (users_in_rooms w) = Some username →
  let w1 := (handle_leave_room request_sid data w).1 in
  let w2 := (handle_leave_room request_sid data w1).1 in
  outbox w2 = outbox w1
  ∧ users_in_rooms w2 = users_in_rooms w1
  ∧ rooms w2 !!! room = rooms w1 !!! room.
Proof.
  intros Hr Hu Hfound. cbv zeta.
  rewrite (handle_leave_room_member_world _ _ _ _ _ _ Hr Hu Hfound). cbn [fst].
  destruct (not_given _ _ _ Hr) as [Hr1 Hr2], (not_given _ _ _ Hu) as [Hu1 Hu2].
  unfold handle_leave_room. rewrite Hr1, Hu1, Hr2, Hu2. run_M. simpl.
  rewrite lookup_member_alter_delete, decide_True by done. simpl.
  split_and!; [done..|]. rewrite !lookup_total_insert_eq. set_solver.
Qed.

Lemma leave_twice_example :
  let w1 := (handle_leave_room "s1" (leave_data "r1" "u1") alice_and_bob).1 in
  let w2 := (handle_leave_room "s1" (leave_data "r1" "u1") w1).1 in
  outbox w2 = outbox w1
  ∧ users_in_rooms w2 = users_in_rooms w1
  ∧ rooms w2 !!! "r1" = rooms w1 !!! "r1".
Proof.
  apply (leave_twice "s1" (leave_data "r1" "u1") alice_and_bob "r1" "u1" "Alice").
  - split; [vm_compute; reflexivity | discriminate].
  - split; [vm_compute; reflexivity | discriminate].
  - vm_compute. reflexivity.
Defined.

(** *** More on disconnecting *)

(** When the disconnecting connection's [sid] is not a key of any room's
    mapping, the handler removes no entry, emits nothing and changes no
    subscription, whatever the connection joined before. *)
Theorem handle_disconnect_unknown_sid (request_sid : string) (w : world) :
  (∀ room_id users, (room_id, users) ∈ users_in_rooms w → users !! request_sid = None) →
  ∃ w', handle_disconnect request_sid w = (w', Ok tt)
    ∧ users_in_rooms w' = users_in_rooms w
    ∧ outbox w' = outbox w
    ∧ rooms w' = rooms w.
Proof.
  intros Hkeys. unfold handle_disconnect. run_M. cbn [users_in_rooms set_stdout].
  rewrite handle_disconnect_loop_no_key by done.
  eexists. split; [reflexivity|]. done.
Qed.

Lemma handle_disconnect_unknown_sid_example :
  ∃ w', handle_disconnect "s1" alice_and_bob = (w', Ok tt)
    ∧ users_in_rooms w' = users_in_rooms alice_and_bob
    ∧ outbox w' = outbox alice_and_bob
    ∧ rooms w' = rooms alice_and_bob.
Proof.
  apply (handle_disconnect_unknown_sid "s1" alice_and_bob).
  intros room_id users Hin. vm_compute in Hin.
  apply list_elem_of_singleton in Hin. injection Hin as _ ->. vm_compute. reflexivity.
Defined.

(** *** Rooms are never forgotten *)

Lemma dict_alter_keys {V : Type} (f : V → V) (k : string) (d : list (string * V)) :
  (dict_alter f k d).*1 = d.*1.
Proof.
  induction d as [|[k0 v0] d IH]; csimpl; [done|].
  destruct (String.eqb k0 k); csimpl; by rewrite ?IH.
Qed.

Lemma dict_insert_keys {V : Type} (k : string) (v : V) (d : list (string * V)) :
  dict_lookup k d = None → (dict_insert k v d).*1 = d.*1 ++ [k].
Proof.
  induction d as [|[k0 v0] d IH]; csimpl; [done|].
  destruct (String.eqb k0 k); [done|]. intros H. csimpl. by rewrite IH.
Qed.

Lemma handle_disconnect_loop_keys request_sid items (w : world) :
  known_rooms (handle_disconnect_loop request_sid items w).1 = known_rooms w.
Proof.
  induction items as [|[room_id users] rest IH]; simpl; [done|].
  case_bool_decide; [|done]. run_M. unfold known_rooms. simpl. apply dict_alter_keys.
Qed.

(** Whatever is served, the rooms known before are still known, in the same
    order, and at most new ones are added behind them. *)
Lemma serve_known_rooms json_loads isoformat e request_sid r (w : world) :
  known_rooms w `prefix_of` known_rooms (serve json_loads isoformat e request_sid r w).
Proof.
  destruct r as [| |data|data|data]; cbv beta iota zeta delta [serve handler].
  - unfold known_rooms. by rewrite handle_connect_members.
  - change (known_rooms w `prefix_of` known_rooms (handle_disconnect request_sid w).1).
    unfold handle_disconnect. run_M. by rewrite handle_disconnect_loop_keys.
  - unfold handle_join_room, known_rooms. destruct (_ || _); run_M; simpl; [done|].
    destruct (dict_lookup _ (users_in_rooms w)) eqn:Hknown; simpl;
      (destruct (db e) as [client|]; simpl;
       [unfold stream; run_M; simpl; destruct (stream_outcome client); simpl|]);
      rewrite dict_alter_keys, ?dict_insert_keys by done; try done;
      by apply prefix_app_r.
  - unfold handle_leave_room, known_rooms. destruct (_ || _); run_M; simpl; [done|].
    destruct (lookup_member _ _ _); simpl; by rewrite ?dict_alter_keys.
  - unfold known_rooms. by rewrite handle_message_members.
Qed.

(** No run of the server removes a room from [users_in_rooms]: the rooms
    known at any moment stay known, in the same order, for as long as the
    process lives, also after their last member has left or disconnected. *)
Theorem rooms_are_never_forgotten (json_loads : string → result pyval)
    (isoformat : Z → string) (trace : list (env * string * request)) (w : world) :
  known_rooms w `prefix_of` known_rooms (run json_loads isoformat trace w).
Proof.
  revert w. induction trace as [|[[e request_sid] r] rest IH]; intros w; [done|].
  etrans; [apply (serve_known_rooms json_loads isoformat e request_sid r)|]. apply IH.
Qed.

(** *** Errors stay with the requester *)

Lemma handle_disconnect_loop_emits request_sid items (w : world) :
  ∀ x, x ∈ emitted_since w (handle_disconnect_loop request_sid items w).1 → ¬ is_error x.
Proof.
  unfold emitted_since. induction items as [|[room_id users] rest IH]; simpl.
  - intros x. rewrite drop_all. by intros ?%elem_of_nil.
  - case_bool_decide; [|done]. run_M. simpl. intros x. rewrite drop_app_length.
    intros ->%list_elem_of_singleton [message [=]].
Qed.

(** Whatever event is served, every [error] its handler emits is addressed
    to the requesting connection's own group with nobody skipped: no
    handler sends an [error] to a room. *)
Theorem errors_go_to_the_requester (json_loads : string → result pyval)
    (isoformat : Z → string) (e : env) (request_sid : string) (r : request) (w : world) :
  ∀ x, x ∈ emitted_since w (handler json_loads isoformat e request_sid r w).1 →
       is_error x → to x = request_sid ∧ skip_sid x = None.
Proof.
  unfold emitted_since. destruct r as [| |data|data|data]; cbn [handler].
  - unfold handle_connect. run_M. simpl. intros x. rewrite drop_app_length.
    by intros ->%list_elem_of_singleton.
  - unfold handle_disconnect. run_M. intros x Hx Herr.
    by destruct (handle_disconnect_loop_emits request_sid _ _ x Hx).
  - unfold handle_join_room. destruct (_ || _); run_M; simpl.
    + intros x. rewrite drop_app_length. by intros ->%list_elem_of_singleton.
    + destruct (dict_lookup _ (users_in_rooms w)); simpl;
        (destruct (db e) as [client|]; simpl;
         [unfold stream; run_M; simpl; destruct (stream_outcome client); simpl|]);
        intros x; rewrite <- ?app_assoc, drop_app_length; simpl;
        rewrite !elem_of_cons, elem_of_nil;
        (intros [->|[->|[]]] [message Hev]; simpl in *; done).
  - unfold handle_leave_room. destruct (_ || _); run_M; simpl.
    + intros x. rewrite drop_app_length. by intros ->%list_elem_of_singleton.
    + destruct (lookup_member _ _ _); simpl; intros x.
      * rewrite drop_app_length. by intros ->%list_elem_of_singleton [message [=]].
      * rewrite drop_all. by intros ?%elem_of_nil.
  - unfold handle_message, handle_message_from. destruct (_ || _); run_M; simpl.
    + intros x. rewrite drop_app_length. by intros ->%list_elem_of_singleton.
    + intros x. rewrite drop_all. by intros ?%elem_of_nil.
Qed.

Lemma errors_go_to_the_requester_example :
  let x := Emitted (error_ev "Failed to load chat history: 400 The query requires an index.")
             "s3" None {[ "s3" ]} in
  to x = "s3" ∧ skip_sid x = None.
Proof.
  apply (errors_go_to_the_requester sample_loads sample_isoformat
           (Env (Some unreadable_store) None ∅) "s3"
           (join_room_ev (join_data "s3" "u3" "Carol")) (initial_world [])).
  - vm_compute. right. left.
  - eexists. reflexivity.
Defined.
